(** * sevico-be: the authentication state machine and its token lifecycle

    A shallow embedding of [app/services/auth_service.py],
    [app/utils/jwt_helper.py] and the two routes of
    [app/routes/auth_routes.py] that sit on the enumeration-sensitive
    boundary, followed by the properties of the account state machine.

    Conventions.
    - A Mongo document of the [users] collection is a record; a key that
      is absent and a key that holds [None] are both [None] here, which is
      what every read in the service ([user.get(...)]) observes.
    - The collection is the list of its documents in natural order;
      [find_one] and [update_one] both act on the first match.  A
      [datetime] written to the collection is kept to the millisecond.
    - The service methods are written in a state monad over [world]: the
      collection, the wall clock, the module-level generator of Python's
      [random], and the mails handed to the notifier. *)

From Stdlib Require Import ZArith String Ascii List Bool Lia.
From stdpp Require Import base decidable option list strings gmap.
Import ListNotations.

Local Open Scope Z_scope.
Local Open Scope string_scope.

(** ** Time *)

(** A naive UTC [datetime], in microseconds since the epoch, and a
    [timedelta], in microseconds. *)
Definition datetime := Z.
Definition timedelta := Z.

Definition timedelta_minutes (m : Z) : timedelta := m * 60000000.
Definition timedelta_hours (h : Z) : timedelta := h * 3600000000.

(** [calendar.timegm(dt.utctimetuple())]: whole seconds, fraction dropped. *)
Definition timegm (t : datetime) : Z := t / 1000000.

(** A [datetime] as the collection keeps it and [find_one] reads it
    back: BSON dates are whole milliseconds, the rest is dropped. *)
Definition bson_datetime (t : datetime) : datetime := t / 1000 * 1000.

(** ** Settings (app/config/settings.py) *)

Record Settings := mkSettings {
  jwt_secret_key : string;
  jwt_algorithm : string;
  jwt_expiration_hours : Z;
  password_reset_expiration_hours : Z;
  verification_code_expiration_minutes : Z
}.

Definition default_settings : Settings :=
  {| jwt_secret_key := "your-jwt-secret-key-change-in-production";
     jwt_algorithm := "HS256";
     jwt_expiration_hours := 24;
     password_reset_expiration_hours := 1;
     verification_code_expiration_minutes := 15 |}.

(** ** The user document (app/models/user_model.py) *)

Module User.
Record t := mk {
  _id : nat;
  email : string;
  password_hash : string;
  fullname : option string;
  avatar : option string;
  dob : option datetime;
  is_verified : bool;
  verification_code : option string;
  verification_code_expires_at : option datetime;
  password_reset_token : option string;
  password_reset_token_expires_at : option datetime;
  created_at : datetime;
  updated_at : datetime
}.
End User.

(** A document as [insert_one] stores it: every [datetime] in it is kept
    to the millisecond. *)
Definition to_bson (u : User.t) : User.t :=
  User.mk (User._id u) (User.email u) (User.password_hash u)
    (User.fullname u) (User.avatar u)
    (bson_datetime <$> User.dob u)
    (User.is_verified u)
    (User.verification_code u)
    (bson_datetime <$> User.verification_code_expires_at u)
    (User.password_reset_token u)
    (bson_datetime <$> User.password_reset_token_expires_at u)
    (bson_datetime (User.created_at u))
    (bson_datetime (User.updated_at u)).

(** The three [$set] documents the service sends to [update_one], as the
    collection applies them; each names the fields it writes and leaves
    the others as they are, and a [datetime] it writes is kept to the
    millisecond. *)

Definition set_verified (t : datetime) (u : User.t) : User.t :=
  User.mk (User._id u) (User.email u) (User.password_hash u)
    (User.fullname u) (User.avatar u) (User.dob u)
    (* is_verified *) true
    (* verification_code *) None
    (* verification_code_expires_at *) None
    (User.password_reset_token u) (User.password_reset_token_expires_at u)
    (User.created_at u)
    (* updated_at *) (bson_datetime t).

Definition set_reset_token (tok : string) (exp t : datetime) (u : User.t) : User.t :=
  User.mk (User._id u) (User.email u) (User.password_hash u)
    (User.fullname u) (User.avatar u) (User.dob u)
    (User.is_verified u)
    (User.verification_code u) (User.verification_code_expires_at u)
    (* password_reset_token *) (Some tok)
    (* password_reset_token_expires_at *) (Some (bson_datetime exp))
    (User.created_at u)
    (* updated_at *) (bson_datetime t).

Definition set_password (h : string) (t : datetime) (u : User.t) : User.t :=
  User.mk (User._id u) (User.email u)
    (* password_hash *) h
    (User.fullname u) (User.avatar u) (User.dob u)
    (User.is_verified u)
    (User.verification_code u) (User.verification_code_expires_at u)
    (* password_reset_token *) None
    (* password_reset_token_expires_at *) None
    (User.created_at u)
    (* updated_at *) (bson_datetime t).

(** ** The world the service runs in *)

(** A mail handed to the notifier (app/services/email_service.py). *)
Inductive Mail :=
| VerificationMail (recipient code : string)
| PasswordResetMail (recipient token : string).

Record world := mkWorld {
  (** [get_db()["users"]] *)
  users_collection : list User.t;
  (** ObjectIds handed out so far *)
  next_oid : nat;
  (** [clock i] is what the [i]-th call of [datetime.utcnow()] returns *)
  clock : nat -> datetime;
  clock_reads : nat;
  (** [random_floor i n] is [floor(random() * n)] at the [i]-th call of
      [random()] on the generator shared by the [random] module *)
  random_floor : nat -> nat -> nat;
  random_draws : nat;
  (** salts consumed by the hasher so far *)
  salts : nat;
  (** mails handed to the notifier, newest first *)
  outbox : list Mail
}.

Definition with_users (l : list User.t) (w : world) : world :=
  {| users_collection := l; next_oid := next_oid w;
     clock := clock w; clock_reads := clock_reads w;
     random_floor := random_floor w; random_draws := random_draws w;
     salts := salts w; outbox := outbox w |}.

(** The instant the next clock read returns. *)
Definition now (w : world) : datetime := clock w (clock_reads w).

(** ** The state monad *)

Definition M (A : Type) : Type := world -> A * world.

Definition ret {A} (a : A) : M A := fun w => (a, w).

Definition bind {A B} (m : M A) (k : A -> M B) : M B :=
  fun w => let (a, w') := m w in k a w'.

Notation "'let*' x ':=' m 'in' k" := (bind m (fun x => k))
  (at level 10, x name, m at level 100, k at level 200).

(** [datetime.utcnow()] *)
Definition utcnow : M datetime := fun w =>
  (now w,
   {| users_collection := users_collection w; next_oid := next_oid w;
      clock := clock w; clock_reads := S (clock_reads w);
      random_floor := random_floor w; random_draws := random_draws w;
      salts := salts w; outbox := outbox w |}).

(** [random.random()] scaled to a population of [n] elements. *)
Definition random_index (n : nat) : M nat := fun w =>
  (random_floor w (random_draws w) n,
   {| users_collection := users_collection w; next_oid := next_oid w;
      clock := clock w; clock_reads := clock_reads w;
      random_floor := random_floor w; random_draws := S (random_draws w);
      salts := salts w; outbox := outbox w |}).

(** [random.choices(population, k=k)]: [k] draws with replacement,
    [population[floor(random() * n)]] each. *)
Fixpoint random_choices (population : list ascii) (k : nat) : M (list ascii) :=
  match k with
  | O => ret []
  | S k' =>
      let* i := random_index (length population) in
      let* rest := random_choices population k' in
      ret (nth i population Ascii.zero :: rest)
  end.

(** ** The collection *)

Definition has_email (e : string) (u : User.t) : bool :=
  bool_decide (User.email u = e).

(** [users_collection.find_one({"email": e})] *)
Definition find_one (e : string) : M (option User.t) := fun w =>
  (find (has_email e) (users_collection w), w).

(** [insert_one(doc)]: the document gets a fresh [_id] and goes last, its
    datetimes kept to the millisecond. *)
Definition insert_one (doc : nat -> User.t) : M nat := fun w =>
  (next_oid w,
   {| users_collection := users_collection w ++ [to_bson (doc (next_oid w))];
      next_oid := S (next_oid w);
      clock := clock w; clock_reads := clock_reads w;
      random_floor := random_floor w; random_draws := random_draws w;
      salts := salts w; outbox := outbox w |}).

Fixpoint update_first (e : string) (f : User.t -> User.t) (l : list User.t) : list User.t :=
  match l with
  | [] => []
  | u :: l' => if has_email e u then f u :: l' else u :: update_first e f l'
  end.

(** [update_one({"email": e}, {"$set": ...})]: the first match only. *)
Definition update_one (e : string) (f : User.t -> User.t) : M unit := fun w =>
  (tt, with_users (update_first e f (users_collection w)) w).

(** The emails of the collection, in natural order. *)
Definition emails (l : list User.t) : list string := map User.email l.

(** The number of documents the query [{"email": e}] matches. *)
Definition count_documents (e : string) (l : list User.t) : nat :=
  length (filter (fun u => User.email u = e) l).

(** [email_service.send_*]: the mail leaves the process; the returned
    flag is ignored by every caller. *)
Definition send (m : Mail) : M unit := fun w =>
  (tt,
   {| users_collection := users_collection w; next_oid := next_oid w;
      clock := clock w; clock_reads := clock_reads w;
      random_floor := random_floor w; random_draws := random_draws w;
      salts := salts w; outbox := m :: outbox w |}).

(** The world after [reads] clock reads, [draws] draws of the generator
    and [hashes] hashes, with [l] as the collection and [oid] as the next
    ObjectId. *)
Definition later (l : list User.t) (oid reads draws hashes : nat) (w : world) : world :=
  {| users_collection := l; next_oid := oid;
     clock := clock w; clock_reads := reads + clock_reads w;
     random_floor := random_floor w; random_draws := draws + random_draws w;
     salts := hashes + salts w; outbox := outbox w |}.

(** ** JSON Web Tokens (python-jose, as [app/utils/jwt_helper.py] uses it) *)

(** A claim value: a JSON string or number, or, before encoding only, a
    Python [datetime]. *)
Inductive Claim :=
| CStr (s : string)
| CInt (n : Z)
| CDatetime (t : datetime).

(** A token string.  [JWS alg key claims] is the compact serialisation
    with header algorithm [alg] and payload [claims] whose signature
    verifies under [key] and under no other key; every other string is
    [Garbage]. *)
Inductive Token :=
| Garbage (s : string)
| JWS (alg key : string) (claims : gmap string Claim).

(** [jwt.encode] turns a [datetime] in the registered time claims into
    whole seconds before it signs. *)
Definition to_numeric_date (k : string) (claims : gmap string Claim) : gmap string Claim :=
  match claims !! k with
  | Some (CDatetime t) => <[k := CInt (timegm t)]> claims
  | _ => claims
  end.

Definition jwt_encode (claims : gmap string Claim) (key alg : string) : Token :=
  JWS alg key (to_numeric_date "nbf" (to_numeric_date "iat" (to_numeric_date "exp" claims))).

(** Python's [int(x)] on a claim value, as the checks of the time claims
    call it; [None] stands for the [ValueError] they turn into a
    [JWTError].  A string is read as [int] reads ASCII text: blanks
    around it, a sign, then decimal digits with single underscores
    between them.  Strings with characters outside ASCII are taken as
    not numeric, and the interpreter's limit on the number of digits is
    not modelled. *)

Definition is_digit (c : ascii) : bool :=
  (48 <=? nat_of_ascii c)%nat && (nat_of_ascii c <=? 57)%nat.

Definition is_space (c : ascii) : bool :=
  ((9 <=? nat_of_ascii c)%nat && (nat_of_ascii c <=? 13)%nat)
  || (nat_of_ascii c =? 32)%nat.

Fixpoint skip_spaces (l : list ascii) : list ascii :=
  match l with
  | c :: l' => if is_space c then skip_spaces l' else l
  | [] => []
  end.

(** The digits at the head of [l], with [acc] for the digits read so
    far; [after_underscore] says that a digit must come next, as it
    must at the start and after an underscore. *)
Fixpoint scan_digits (l : list ascii) (after_underscore : bool) (acc : Z)
  : option (Z * list ascii) :=
  match l with
  | c :: l' =>
      if is_digit c
      then scan_digits l' false (acc * 10 + (Z.of_nat (nat_of_ascii c) - 48))
      else if Ascii.eqb c "_"
      then (if after_underscore then None else scan_digits l' true acc)
      else (if after_underscore then None else Some (acc, l))
  | [] => if after_underscore then None else Some (acc, l)
  end.

Definition int_of_string (s : string) : option Z :=
  let l := skip_spaces (list_ascii_of_string s) in
  let signed :=
    match l with
    | c :: l' =>
        if Ascii.eqb c "-" then (true, l')
        else if Ascii.eqb c "+" then (false, l')
        else (false, l)
    | [] => (false, l)
    end in
  match scan_digits (snd signed) true 0 with
  | Some (v, rest) =>
      match skip_spaces rest with
      | [] => Some (if fst signed then - v else v)
      | _ => None
      end
  | None => None
  end.

Definition python_int (c : Claim) : option Z :=
  match c with
  | CInt n => Some n
  | CStr s => int_of_string s
  | CDatetime _ => None
  end.

(** The checks [jwt.decode] runs on the claims by default, with no
    audience, issuer, subject or access token given, at the instant [t]:
    [iat] must be a number; [nbf] a number not after the clock and [exp]
    a number not before it, both in whole seconds; an [aud] claim is
    refused, there being no audience to match it; [sub] and [jti] must be
    strings; an [at_hash] claim is refused, there being no access token.
    A claim that is absent passes its check. *)

Definition numeric_or_absent (c : option Claim) : bool :=
  match c with
  | None => true
  | Some c => bool_decide (is_Some (python_int c))
  end.

Definition string_or_absent (c : option Claim) : bool :=
  match c with
  | None | Some (CStr _) => true
  | Some _ => false
  end.

Definition absent (c : option Claim) : bool :=
  match c with None => true | Some _ => false end.

Definition not_yet_valid (nbf : option Claim) (t : datetime) : bool :=
  match nbf with
  | None => false
  | Some c => match python_int c with
              | None => true
              | Some n => (timegm t <? n)%Z
              end
  end.

Definition has_expired (exp : option Claim) (t : datetime) : bool :=
  match exp with
  | None => false
  | Some c => match python_int c with
              | None => true
              | Some e => (e <? timegm t)%Z
              end
  end.

Definition claims_accepted (claims : gmap string Claim) (t : datetime) : bool :=
  numeric_or_absent (claims !! "iat")
  && negb (not_yet_valid (claims !! "nbf") t)
  && negb (has_expired (claims !! "exp") t)
  && absent (claims !! "aud")
  && string_or_absent (claims !! "sub")
  && string_or_absent (claims !! "jti")
  && absent (claims !! "at_hash").

(** [jwt.decode(token, key, algorithms=algs)] with the default options;
    [None] stands for a raised [JWTError].  The header algorithm and the
    signature are checked first, then the claims, in the order [iat],
    [nbf], [exp], [aud], [sub], [jti], [at_hash].  The library reads the
    clock once in the check of [nbf] and once in the check of [exp];
    the two readings, a few instructions apart, are taken as one. *)
Definition jwt_decode (token : Token) (key : string) (algs : list string)
  : M (option (gmap string Claim)) :=
  match token with
  | Garbage _ => ret None
  | JWS alg k claims =>
      if negb (bool_decide (alg ∈ algs) && bool_decide (k = key)) then ret None
      else if negb (numeric_or_absent (claims !! "iat")) then ret None
      else
        let* in_time :=
          match claims !! "nbf" with
          | Some c =>
              match python_int c with
              | None => ret false
              | Some n =>
                  let* t := utcnow in
                  if (timegm t <? n)%Z then ret false
                  else ret (negb (has_expired (claims !! "exp") t))
              end
          | None =>
              match claims !! "exp" with
              | None => ret true
              | Some c =>
                  match python_int c with
                  | None => ret false
                  | Some e => let* t := utcnow in ret (negb (e <? timegm t)%Z)
                  end
              end
          end in
        if negb in_time then ret None
        else if negb (absent (claims !! "aud")) then ret None
        else if negb (string_or_absent (claims !! "sub")) then ret None
        else if negb (string_or_absent (claims !! "jti")) then ret None
        else if negb (absent (claims !! "at_hash")) then ret None
        else ret (Some claims)
  end.

(** ** The credential hasher *)

(** Modelled from the spec: [app/utils/password_helper.py] is not among
    the sources.  The spec gives it as [hash(password) -> hash_value] and
    [verify(password, hash_value) -> bool], salted so that two calls on
    one password need not agree; the salt of a call is the number of
    hashes computed before it. *)
Class CredentialHasher := {
  hash_with_salt : nat -> string -> string;
  verify_password : string -> string -> bool
}.

(** What a service method returns: the dictionaries
    [{"success": False, "message": m}], the one of a registration, the
    bare [{"success": True, "message": m}], the one of a sign-in and the
    one of a password-reset request. *)
Inductive Result :=
| Failure (message : string)
| Registered (user_id : nat) (email verification_code : string)
| Success (message : string)
| Authenticated (access_token : Token) (token_type : string) (expires_in : Z) (email : string)
| ResetIssued (reset_token message : string).

(** [result["success"]] *)
Definition success (r : Result) : bool :=
  match r with Failure _ => false | _ => true end.

(** [result.get("reset_token")] *)
Definition get_reset_token (r : Result) : option string :=
  match r with ResetIssued tok _ => Some tok | _ => None end.

(** What a route answers. *)
Inductive Response :=
| HTTPException (status_code : nat) (detail : string)
| InternalServerError
| UserSignupResponse (email message : string)
| VerifyEmailResponse (message : string)
| SignInResponse (access_token : Token) (token_type : string) (expires_in : Z) (email : string)
| ValidateTokenResponse (is_valid : bool) (email : option Claim) (message : string)
| PasswordResetResponse (message : string)
| PasswordResetConfirmResponse (message : string).

Definition digits : string := "0123456789".
Definition ascii_letters : string :=
  "abcdefghijklmnopqrstuvwxyzABCDEFGHIJKLMNOPQRSTUVWXYZ".

Section Service.

Context (settings : Settings) `{CredentialHasher}.

(** *** app/utils/jwt_helper.py *)

Definition create_access_token (data : gmap string Claim) (expires_delta : option timedelta)
  : M Token :=
  let* expire :=
    match expires_delta with
    | Some d => if negb (d =? 0)%Z then let* t := utcnow in ret (t + d)
                else let* t := utcnow in ret (t + timedelta_hours (jwt_expiration_hours settings))
    | None => let* t := utcnow in ret (t + timedelta_hours (jwt_expiration_hours settings))
    end in
  let to_encode := <["exp" := CDatetime expire]> data in
  ret (jwt_encode to_encode (jwt_secret_key settings) (jwt_algorithm settings)).

Definition verify_token (token : Token) : M (option (gmap string Claim)) :=
  let* decoded := jwt_decode token (jwt_secret_key settings) [jwt_algorithm settings] in
  match decoded with
  | Some payload =>
      match payload !! "sub" with
      | None => ret None
      | Some _ => ret (Some payload)
      end
  | None => ret None
  end.

Definition get_email_from_token (token : Token) : M (option Claim) :=
  let* payload := verify_token token in
  match payload with
  | Some payload => if bool_decide (payload = ∅) then ret None else ret (payload !! "sub")
  | None => ret None
  end.

(** *** app/services/auth_service.py *)

Definition hash_password (password : string) : M string := fun w =>
  (hash_with_salt (salts w) password,
   {| users_collection := users_collection w; next_oid := next_oid w;
      clock := clock w; clock_reads := clock_reads w;
      random_floor := random_floor w; random_draws := random_draws w;
      salts := S (salts w); outbox := outbox w |}).

Definition generate_verification_code : M string :=
  let* cs := random_choices (list_ascii_of_string digits) 6 in
  ret (string_of_list_ascii cs).

Definition generate_reset_token : M string :=
  let* cs := random_choices (list_ascii_of_string (ascii_letters ++ digits)) 32 in
  ret (string_of_list_ascii cs).

(** [expires_at and datetime.utcnow() > expires_at]: the clock is read
    only when an expiry is stored. *)
Definition expired (expires_at : option datetime) : M bool :=
  match expires_at with
  | None => ret false
  | Some x => let* t := utcnow in ret (x <? t)%Z
  end.

(** The outcome of the expiry check of [verify_email] and
    [confirm_password_reset] at the world [w]: whether the stored expiry
    is behind the clock, and how many clock reads the check costs. *)
Definition is_late (expires_at : option datetime) (w : world) : bool :=
  match expires_at with
  | None => false
  | Some x => (x <? now w)%Z
  end.

Definition reads_of (expires_at : option datetime) : nat :=
  match expires_at with None => 0 | Some _ => 1 end.

Definition register_user (email password : string) (fullname avatar : option string)
    (dob : option datetime) : M Result :=
  let* existing_user := find_one email in
  match existing_user with
  | Some _ => ret (Failure "User already exists")
  | None =>
      let* verification_code := generate_verification_code in
      let* t := utcnow in
      let code_expires_at :=
        t + timedelta_minutes (verification_code_expiration_minutes settings) in
      let* hashed := hash_password password in
      let* created := utcnow in
      let* updated := utcnow in
      let* inserted_id := insert_one (fun oid =>
        {| User._id := oid;
           User.email := email;
           User.password_hash := hashed;
           User.fullname := fullname;
           User.avatar := avatar;
           User.dob := dob;
           User.is_verified := false;
           User.verification_code := Some verification_code;
           User.verification_code_expires_at := Some code_expires_at;
           User.password_reset_token := None;
           User.password_reset_token_expires_at := None;
           User.created_at := created;
           User.updated_at := updated |}) in
      ret (Registered inserted_id email verification_code)
  end.

(** The document a registration leaves in the collection. *)
Definition new_user (email password : string) (fullname avatar : option string)
    (dob : option datetime) (w : world) : User.t :=
  to_bson
  {| User._id := next_oid w;
     User.email := email;
     User.password_hash := hash_with_salt (salts w) password;
     User.fullname := fullname;
     User.avatar := avatar;
     User.dob := dob;
     User.is_verified := false;
     User.verification_code := Some (fst (generate_verification_code w));
     User.verification_code_expires_at :=
       Some (now w + timedelta_minutes (verification_code_expiration_minutes settings));
     User.password_reset_token := None;
     User.password_reset_token_expires_at := None;
     User.created_at := clock w (1 + clock_reads w);
     User.updated_at := clock w (2 + clock_reads w) |}.

Definition verify_email (email verification_code : string) : M Result :=
  let* user := find_one email in
  match user with
  | None => ret (Failure "User not found")
  | Some user =>
      if User.is_verified user then ret (Failure "User already verified")
      else if negb (bool_decide (User.verification_code user = Some verification_code))
      then ret (Failure "Invalid verification code")
      else
        let* late := expired (User.verification_code_expires_at user) in
        if late then ret (Failure "Verification code expired")
        else
          let* t := utcnow in
          let* _ := update_one email (set_verified t) in
          ret (Success "Email verified successfully")
  end.

Definition authenticate_user (email password : string) : M Result :=
  let* user := find_one email in
  match user with
  | None => ret (Failure "Invalid credentials")
  | Some user =>
      if negb (User.is_verified user) then ret (Failure "Email not verified")
      else if negb (verify_password password (User.password_hash user))
      then ret (Failure "Invalid credentials")
      else
        let* access_token := create_access_token {["sub" := CStr email]} None in
        ret (Authenticated access_token "bearer"
               (jwt_expiration_hours settings * 3600) email)
  end.

Definition initiate_password_reset (email : string) : M Result :=
  let* user := find_one email in
  match user with
  | None => ret (Success "Password reset email sent if user exists")
  | Some _ =>
      let* reset_token := generate_reset_token in
      let* t := utcnow in
      let token_expires_at :=
        t + timedelta_hours (password_reset_expiration_hours settings) in
      let* updated := utcnow in
      let* _ := update_one email (set_reset_token reset_token token_expires_at updated) in
      ret (ResetIssued reset_token "Password reset email sent")
  end.

Definition confirm_password_reset (email reset_token new_password : string) : M Result :=
  let* user := find_one email in
  match user with
  | None => ret (Failure "User not found")
  | Some user =>
      if negb (bool_decide (User.password_reset_token user = Some reset_token))
      then ret (Failure "Invalid reset token")
      else
        let* late := expired (User.password_reset_token_expires_at user) in
        if late then ret (Failure "Reset token expired")
        else
          let* hashed := hash_password new_password in
          let* t := utcnow in
          let* _ := update_one email (set_password hashed t) in
          ret (Success "Password reset successfully")
  end.

Definition get_user_by_email (email : string) : M (option User.t) := find_one email.

(** *** app/routes/auth_routes.py

    A route receives a request that has passed its schema; a key missing
    from the dictionary a service returned is a [KeyError], which the
    framework answers with a 500. *)

Definition signup (email password : string) (fullname avatar : option string)
    (dob : option datetime) : M Response :=
  let* result := register_user email password fullname avatar dob in
  match result with
  | Failure message => ret (HTTPException 400 message)
  | Registered _ _ verification_code =>
      let* _ := send (VerificationMail email verification_code) in
      ret (UserSignupResponse email
             "User registered successfully. Please verify your email.")
  | _ => ret InternalServerError
  end.

Definition signin (email password : string) : M Response :=
  let* result := authenticate_user email password in
  match result with
  | Failure message => ret (HTTPException 401 message)
  | Authenticated access_token token_type expires_in email' =>
      ret (SignInResponse access_token token_type expires_in email')
  | _ => ret InternalServerError
  end.

Definition validate_token (token : Token) : M Response :=
  let* payload := verify_token token in
  match payload with
  | None => ret (ValidateTokenResponse false None "Invalid or expired token")
  | Some payload =>
      if bool_decide (payload = ∅)
      then ret (ValidateTokenResponse false None "Invalid or expired token")
      else ret (ValidateTokenResponse true (payload !! "sub") "Token is valid")
  end.

Definition password_reset (email : string) : M Response :=
  let* result := initiate_password_reset email in
  let* _ :=
    if success result then
      match get_reset_token result with
      | Some reset_token =>
          if bool_decide (reset_token = "") then ret tt
          else send (PasswordResetMail email reset_token)
      | None => ret tt
      end
    else ret tt in
  ret (PasswordResetResponse "Password reset email sent successfully").

Definition password_reset_confirm (email reset_token new_password : string) : M Response :=
  let* result := confirm_password_reset email reset_token new_password in
  match result with
  | Failure message => ret (HTTPException 400 message)
  | _ => ret (PasswordResetConfirmResponse "Password reset successfully")
  end.

(** *** The service as a state machine *)

Inductive Request :=
| Register (email password : string) (fullname avatar : option string) (dob : option datetime)
| VerifyEmail (email verification_code : string)
| SignIn (email password : string)
| InitiatePasswordReset (email : string)
| ConfirmPasswordReset (email reset_token new_password : string).

Definition serve (r : Request) : M Result :=
  match r with
  | Register e p f a d => register_user e p f a d
  | VerifyEmail e c => verify_email e c
  | SignIn e p => authenticate_user e p
  | InitiatePasswordReset e => initiate_password_reset e
  | ConfirmPasswordReset e t p => confirm_password_reset e t p
  end.

(** The world after a sequence of requests, served one after another. *)
Fixpoint run (rs : list Request) (w : world) : world :=
  match rs with
  | [] => w
  | r :: rs' => run rs' (snd (serve r w))
  end.

(** One request, seen from the collection: what it may do to the
    documents of the world [w] it is served in. *)
Inductive transition (w : world) : list User.t -> Prop :=
| transition_idle :
    transition w (users_collection w)
| transition_insert u :
    find (has_email (User.email u)) (users_collection w) = None ->
    User.is_verified u = false ->
    is_Some (User.verification_code u) ->
    is_Some (User.verification_code_expires_at u) ->
    transition w (users_collection w ++ [u])
| transition_verify e u t :
    find (has_email e) (users_collection w) = Some u ->
    User.is_verified u = false ->
    is_late (User.verification_code_expires_at u) w = false ->
    transition w (update_first e (set_verified t) (users_collection w))
| transition_reset_token e tok exp t :
    transition w (update_first e (set_reset_token tok exp t) (users_collection w))
| transition_password e h t :
    transition w (update_first e (set_password h t) (users_collection w)).

(** The clock of [w'] is the clock of [w], read at least as often. *)
Definition clock_advanced (w w' : world) : Prop :=
  clock w' = clock w /\ (clock_reads w <= clock_reads w')%nat.

(** A clock that never runs backwards. *)
Definition monotone_clock (w : world) : Prop :=
  forall i j : nat, (i <= j)%nat -> (clock w i <= clock w j)%Z.

(** One request, seen from one account. *)
Inductive account_step (w : world) (u : User.t) : User.t -> Prop :=
| account_same :
    account_step w u u
| account_verified t :
    User.is_verified u = false ->
    is_late (User.verification_code_expires_at u) w = false ->
    account_step w u (set_verified t u)
| account_reset_token tok exp t :
    account_step w u (set_reset_token tok exp t u)
| account_password h t :
    account_step w u (set_password h t u).

(** A verification of the account is pending at the instant [t]: the
    account is not verified and its code has not expired. *)
Definition verification_pending (t : datetime) (u : User.t) : Prop :=
  User.is_verified u = false
  /\ match User.verification_code_expires_at u with
     | Some x => (t <= x)%Z
     | None => False
     end.

(** The code and its expiry are stored exactly while the account is not
    verified. *)
Definition code_while_unverified (u : User.t) : Prop :=
  if User.is_verified u
  then User.verification_code u = None /\ User.verification_code_expires_at u = None
  else is_Some (User.verification_code u)
       /\ is_Some (User.verification_code_expires_at u).

(** Once its code has expired, an unverified account stays unverified
    with that expired code, as long as the clock does not run backwards. *)
Definition code_lapsed (e : string) (w : world) : Prop :=
  exists u x k,
    find (has_email e) (users_collection w) = Some u
    /\ User.is_verified u = false
    /\ User.verification_code_expires_at u = Some x
    /\ (x < clock w k)%Z /\ (k <= clock_reads w)%nat.

End Service.

(** ** The rest of the surface *)

(** *** app/schemas/user_schema.py *)

Definition is_ascii_letter (c : ascii) : bool :=
  ((97 <=? nat_of_ascii c)%nat && (nat_of_ascii c <=? 122)%nat)
  || ((65 <=? nat_of_ascii c)%nat && (nat_of_ascii c <=? 90)%nat).

(** [VerifyEmailRequest.verification_code]: the pattern [^[0-9]{6}$]. *)
Definition verification_code_pattern (s : string) : bool :=
  (String.length s =? 6)%nat && forallb is_digit (list_ascii_of_string s).

(** *** GET /me (app/routes/auth_routes.py) *)

Inductive MeResponse :=
| MeHTTPException (status_code : nat) (detail : string)
| UserInfoResponse (email : string) (fullname avatar : option string)
    (dob : option datetime) (is_verified : bool) (created_at : datetime).

Section Me.

Context (settings : Settings).

(** [if not email] rejects an empty subject as it rejects a missing one;
    a subject that is not a string matches no document. *)
Definition get_current_user (token : Token) : M MeResponse :=
  let* email := get_email_from_token settings token in
  match email with
  | None => ret (MeHTTPException 401 "Invalid or expired token")
  | Some (CStr email) =>
      if bool_decide (email = "") then ret (MeHTTPException 401 "Invalid or expired token")
      else
        let* user := get_user_by_email email in
        match user with
        | None => ret (MeHTTPException 404 "User not found")
        | Some user =>
            ret (UserInfoResponse (User.email user) (User.fullname user)
                   (User.avatar user) (User.dob user) (User.is_verified user)
                   (User.created_at user))
        end
  | Some (CInt n) =>
      if (n =? 0)%Z then ret (MeHTTPException 401 "Invalid or expired token")
      else ret (MeHTTPException 404 "User not found")
  | Some (CDatetime _) => ret (MeHTTPException 404 "User not found")
  end.

End Me.

(** *** Conditions on the environment and on accounts *)

(** [floor(random() * n)] is an index into a population of [n]. *)
Definition generator_in_range (w : world) : Prop :=
  forall i n : nat, (0 < n)%nat -> (random_floor w i n < n)%nat.

(** What no request changes about an account. *)
Definition same_identity (u u' : User.t) : Prop :=
  User._id u' = User._id u
  /\ User.email u' = User.email u
  /\ User.fullname u' = User.fullname u
  /\ User.avatar u' = User.avatar u
  /\ User.dob u' = User.dob u
  /\ User.created_at u' = User.created_at u
  /\ (User.is_verified u = true -> User.is_verified u' = true).

(** ** A concrete deployment, to run the service on *)

(** A hasher that keeps the contract of the spec in the simplest way:
    the hash is the salt, a separator and the password. *)
Definition sample_hash (salt : nat) (password : string) : string :=
  String.concat "" (repeat "s" salt) ++ "$" ++ password.

Fixpoint drop_salt (h : string) : string :=
  match h with
  | String "s" h' => drop_salt h'
  | _ => h
  end.

#[export] Instance sample_hasher : CredentialHasher :=
  {| hash_with_salt := sample_hash;
     verify_password := fun password h => bool_decide (drop_salt h = "$" ++ password) |}.

(** A process started on an empty collection, whose clock advances by
    [step] microseconds from one read to the next. *)
Definition fresh_world (step : Z) : world :=
  {| users_collection := [];
     next_oid := 0;
     clock := fun i => Z.of_nat i * step;
     clock_reads := 0;
     random_floor := fun i n => ((7 * i + 3) mod n)%nat;
     random_draws := 0;
     salts := 0;
     outbox := [] |}.

(** The example of the spec: a@x.com registers with password123. *)
Definition registered : world :=
  run default_settings [Register "a@x.com" "password123" None None None]
    (fresh_world 1000).

(** The same registration on a clock that jumps a thousand seconds from
    one read to the next: the code has expired when the call returns. *)
Definition registered_late : world :=
  run default_settings [Register "a@x.com" "password123" None None None]
    (fresh_world 1000000000).

(** The account has verified its email and has asked for a reset. *)
Definition reset_requested : world :=
  run default_settings
    [VerifyEmail "a@x.com" "307418"; InitiatePasswordReset "a@x.com"] registered.

(** The account has asked for a reset without verifying its email. *)
Definition reset_requested_unverified : world :=
  run default_settings [InitiatePasswordReset "a@x.com"] registered.

(** The account these registrations create. *)
Definition account (created updated : datetime) : User.t :=
  {| User._id := 0;
     User.email := "a@x.com";
     User.password_hash := "$password123";
     User.fullname := None;
     User.avatar := None;
     User.dob := None;
     User.is_verified := false;
     User.verification_code := Some "307418";
     User.verification_code_expires_at := Some 900000000;
     User.password_reset_token := None;
     User.password_reset_token_expires_at := None;
     User.created_at := created;
     User.updated_at := updated |}.

(** ** Properties *)

(** *** The primitives *)

Lemma later_0 w : later (users_collection w) (next_oid w) 0 0 0 w = w.
Proof. by destruct w. Qed.

Lemma random_choices_world population k w :
  snd (random_choices population k w)
  = later (users_collection w) (next_oid w) 0 k 0 w.
Proof.
  revert w. induction k as [|k IH]; intros w; simpl.
  - by rewrite later_0.
  - unfold bind at 1. simpl. unfold bind at 1.
    destruct (random_choices population k _) as [rest w'] eqn:E.
    simpl. apply (f_equal snd) in E. rewrite IH in E. simpl in E. subst w'.
    unfold later. simpl. do 2 f_equal. lia.
Qed.

Lemma generate_verification_code_world w :
  snd (generate_verification_code w)
  = later (users_collection w) (next_oid w) 0 6 0 w.
Proof.
  unfold generate_verification_code, bind.
  destruct (random_choices _ 6 w) as [cs w'] eqn:E.
  apply (f_equal snd) in E. by rewrite random_choices_world in E.
Qed.

Lemma generate_reset_token_world w :
  snd (generate_reset_token w)
  = later (users_collection w) (next_oid w) 0 32 0 w.
Proof.
  unfold generate_reset_token, bind.
  destruct (random_choices _ 32 w) as [cs w'] eqn:E.
  apply (f_equal snd) in E. by rewrite random_choices_world in E.
Qed.

#[global] Arguments generate_verification_code : simpl never.
#[global] Arguments generate_reset_token : simpl never.
#[global] Arguments create_access_token : simpl never.
#[global] Arguments timedelta_minutes : simpl never.
#[global] Arguments timedelta_hours : simpl never.
#[global] Arguments timegm : simpl never.

(** *** The collection *)

Lemma has_email_true e u : has_email e u = true <-> User.email u = e.
Proof. unfold has_email. apply bool_decide_eq_true. Qed.

Lemma has_email_false e u : has_email e u = false <-> User.email u <> e.
Proof. unfold has_email. apply bool_decide_eq_false. Qed.

Lemma find_one_email e l u : find (has_email e) l = Some u -> User.email u = e.
Proof. intros Hf. apply find_some in Hf as [_ Hf]. by apply has_email_true. Qed.

Lemma find_one_None e l : find (has_email e) l = None <-> e ∉ emails l.
Proof.
  induction l as [|u l IH]; simpl.
  - split; [intros _; apply not_elem_of_nil | done].
  - rewrite not_elem_of_cons. destruct (has_email e u) eqn:E.
    + apply has_email_true in E. split; [done | intros [Hne _]; by destruct Hne].
    + apply has_email_false in E. rewrite IH. split; [intros ?; split; congruence | tauto].
Qed.

Lemma find_one_app e l l' :
  find (has_email e) (l ++ l')
  = match find (has_email e) l with
    | Some u => Some u
    | None => find (has_email e) l'
    end.
Proof. induction l as [|u l IH]; simpl; [done|]. by destruct (has_email e u). Qed.

Lemma emails_update_first e f l :
  (forall u, User.email (f u) = User.email u) ->
  emails (update_first e f l) = emails l.
Proof.
  intros Hf. induction l as [|u l IH]; simpl; [done|].
  destruct (has_email e u); simpl; [by rewrite Hf | by rewrite IH].
Qed.

Lemma find_update_first_eq e f l :
  (forall u, User.email (f u) = User.email u) ->
  find (has_email e) (update_first e f l) = f <$> find (has_email e) l.
Proof.
  intros Hf. induction l as [|u l IH]; simpl; [done|].
  destruct (has_email e u) eqn:E; simpl.
  - unfold has_email in *. by rewrite Hf, E.
  - by rewrite E.
Qed.

Lemma find_update_first_ne e e' f l :
  (forall u, User.email (f u) = User.email u) ->
  e' <> e ->
  find (has_email e') (update_first e f l) = find (has_email e') l.
Proof.
  intros Hf Hne. induction l as [|u l IH]; simpl; [done|].
  destruct (has_email e u) eqn:E; simpl.
  - apply has_email_true in E.
    assert (has_email e' u = false) as E1 by (apply has_email_false; congruence).
    assert (has_email e' (f u) = false) as E2
      by (apply has_email_false; rewrite Hf; congruence).
    by rewrite E1, E2.
  - by rewrite IH.
Qed.

Lemma find_update_first e e' f l :
  (forall u, User.email (f u) = User.email u) ->
  find (has_email e') (update_first e f l)
  = (if bool_decide (e' = e) then f else id) <$> find (has_email e') l.
Proof.
  intros Hf. case_bool_decide as E.
  - subst e'. by apply find_update_first_eq.
  - rewrite find_update_first_ne by done. by destruct (find _ l).
Qed.

Lemma update_first_absent e f l :
  find (has_email e) l = None -> update_first e f l = l.
Proof.
  induction l as [|u l IH]; simpl; [done|].
  destruct (has_email e u); [done|]. intros Hf. by rewrite IH.
Qed.

Lemma count_documents_absent e l : e ∉ emails l -> count_documents e l = 0%nat.
Proof.
  unfold count_documents. induction l as [|u l IH]; simpl; [done|].
  rewrite not_elem_of_cons. intros [Hne Hl].
  rewrite filter_cons_False by congruence. by apply IH.
Qed.

Lemma count_documents_NoDup e l :
  NoDup (emails l) -> e ∈ emails l -> count_documents e l = 1%nat.
Proof.
  induction l as [|u l IH]; simpl; intros Hnd Hin.
  - by apply elem_of_nil in Hin.
  - apply NoDup_cons in Hnd as [Hu Hnd]. unfold count_documents.
    destruct (decide (User.email u = e)) as [Heq|Hne].
    + rewrite filter_cons_True by done. simpl. f_equal.
      apply count_documents_absent. by rewrite <- Heq.
    + rewrite filter_cons_False by done. apply IH; [done|].
      apply elem_of_cons in Hin as [Heq|Hin]; [congruence | done].
Qed.

Section Properties.

Context (settings : Settings) `{CredentialHasher}.

(** *** What each method of the service does *)

Lemma register_user_existing email password fullname avatar dob w u :
  find (has_email email) (users_collection w) = Some u ->
  register_user settings email password fullname avatar dob w
  = (Failure "User already exists", w).
Proof.
  intros Hf. unfold register_user, bind, find_one. by rewrite Hf.
Qed.

Lemma register_user_fresh email password fullname avatar dob w :
  find (has_email email) (users_collection w) = None ->
  register_user settings email password fullname avatar dob w
  = (Registered (next_oid w) email (fst (generate_verification_code w)),
     later (users_collection w ++ [new_user settings email password fullname avatar dob w])
           (S (next_oid w)) 3 6 1 w).
Proof.
  intros Hf. unfold register_user, bind at 1, find_one. rewrite Hf.
  unfold bind at 1, new_user.
  pose proof (generate_verification_code_world w) as Hw.
  destruct (generate_verification_code w) as [code w1]. simpl in Hw. subst w1.
  reflexivity.
Qed.

Lemma expired_eq expires_at w :
  expired expires_at w
  = (is_late expires_at w,
     later (users_collection w) (next_oid w) (reads_of expires_at) 0 0 w).
Proof. destruct expires_at; simpl; [done|]. unfold ret. by rewrite later_0. Qed.

Lemma verify_email_eq email code w :
  verify_email email code w =
  match find (has_email email) (users_collection w) with
  | None => (Failure "User not found", w)
  | Some user =>
      if User.is_verified user then (Failure "User already verified", w)
      else if negb (bool_decide (User.verification_code user = Some code))
      then (Failure "Invalid verification code", w)
      else
        let n := reads_of (User.verification_code_expires_at user) in
        if is_late (User.verification_code_expires_at user) w
        then (Failure "Verification code expired",
              later (users_collection w) (next_oid w) n 0 0 w)
        else (Success "Email verified successfully",
              later (update_first email (set_verified (clock w (n + clock_reads w)))
                       (users_collection w))
                    (next_oid w) (S n) 0 0 w)
  end.
Proof.
  unfold verify_email, bind at 1, find_one.
  destruct (find _ _) as [user|]; [|done].
  destruct (User.is_verified user); [done|].
  destruct (negb _); [done|].
  unfold bind at 1. rewrite expired_eq.
  destruct (is_late _ w); [done|].
  destruct (User.verification_code_expires_at user); reflexivity.
Qed.

Lemma authenticate_user_eq email password w :
  authenticate_user settings email password w =
  match find (has_email email) (users_collection w) with
  | None => (Failure "Invalid credentials", w)
  | Some user =>
      if negb (User.is_verified user) then (Failure "Email not verified", w)
      else if negb (verify_password password (User.password_hash user))
      then (Failure "Invalid credentials", w)
      else
        (Authenticated
           (fst (create_access_token settings {["sub" := CStr email]} None w))
           "bearer" (jwt_expiration_hours settings * 3600) email,
         later (users_collection w) (next_oid w) 1 0 0 w)
  end.
Proof.
  unfold authenticate_user, bind at 1, find_one.
  destruct (find _ _) as [user|]; [|done].
  destruct (negb (User.is_verified user)); [done|].
  destruct (negb (verify_password _ _)); [done|].
  reflexivity.
Qed.

Lemma initiate_password_reset_eq email w :
  initiate_password_reset settings email w =
  match find (has_email email) (users_collection w) with
  | None => (Success "Password reset email sent if user exists", w)
  | Some _ =>
      let reset_token := fst (generate_reset_token w) in
      (ResetIssued reset_token "Password reset email sent",
       later (update_first email
                (set_reset_token reset_token
                   (now w + timedelta_hours (password_reset_expiration_hours settings))
                   (clock w (1 + clock_reads w)))
                (users_collection w))
             (next_oid w) 2 32 0 w)
  end.
Proof.
  unfold initiate_password_reset, bind at 1, find_one.
  destruct (find _ _) as [user|]; [|done].
  unfold bind at 1.
  pose proof (generate_reset_token_world w) as Hw.
  destruct (generate_reset_token w) as [tok w1]. simpl in Hw. subst w1.
  reflexivity.
Qed.

Lemma confirm_password_reset_eq email reset_token new_password w :
  confirm_password_reset email reset_token new_password w =
  match find (has_email email) (users_collection w) with
  | None => (Failure "User not found", w)
  | Some user =>
      if negb (bool_decide (User.password_reset_token user = Some reset_token))
      then (Failure "Invalid reset token", w)
      else
        let n := reads_of (User.password_reset_token_expires_at user) in
        if is_late (User.password_reset_token_expires_at user) w
        then (Failure "Reset token expired",
              later (users_collection w) (next_oid w) n 0 0 w)
        else (Success "Password reset successfully",
              later (update_first email
                       (set_password (hash_with_salt (salts w) new_password)
                          (clock w (n + clock_reads w)))
                       (users_collection w))
                    (next_oid w) (S n) 0 1 w)
  end.
Proof.
  unfold confirm_password_reset, bind at 1, find_one.
  destruct (find _ _) as [user|]; [|done].
  destruct (negb _); [done|].
  unfold bind at 1. rewrite expired_eq.
  destruct (is_late _ w); [done|].
  destruct (User.password_reset_token_expires_at user); reflexivity.
Qed.

(** *** One request as a transition of the collection *)

Lemma serve_transition r w :
  transition w (users_collection (snd (serve settings r w))).
Proof.
  destruct r as [e p f a d|e c|e p|e|e tok p]; simpl.
  - destruct (find (has_email e) (users_collection w)) as [u|] eqn:Hf.
    + rewrite (register_user_existing _ _ _ _ _ _ u Hf). apply transition_idle.
    + rewrite register_user_fresh by done. simpl.
      by apply transition_insert; simpl; eauto.
  - rewrite verify_email_eq.
    destruct (find (has_email e) (users_collection w)) as [u|] eqn:Hf;
      [|apply transition_idle].
    destruct (User.is_verified u) eqn:Hv; [apply transition_idle|].
    destruct (negb _); [apply transition_idle|].
    destruct (is_late _ w) eqn:Hl; simpl; [apply transition_idle|].
    by eapply transition_verify.
  - rewrite authenticate_user_eq.
    destruct (find (has_email e) (users_collection w)) as [u|];
      [|apply transition_idle].
    destruct (negb (User.is_verified u)); [apply transition_idle|].
    destruct (negb (verify_password _ _)); simpl; apply transition_idle.
  - rewrite initiate_password_reset_eq.
    destruct (find (has_email e) (users_collection w)) as [u|];
      [|apply transition_idle].
    apply transition_reset_token.
  - rewrite confirm_password_reset_eq.
    destruct (find (has_email e) (users_collection w)) as [u|];
      [|apply transition_idle].
    destruct (negb _); [apply transition_idle|].
    destruct (is_late _ w); simpl; [apply transition_idle|].
    apply transition_password.
Qed.

Lemma serve_clock r w : clock_advanced w (snd (serve settings r w)).
Proof.
  unfold clock_advanced.
  destruct r as [e p f a d|e c|e p|e|e tok p]; simpl.
  - destruct (find (has_email e) (users_collection w)) as [u|] eqn:Hf.
    + by rewrite (register_user_existing _ _ _ _ _ _ u Hf).
    + rewrite register_user_fresh by done. simpl. split; [done | lia].
  - rewrite verify_email_eq.
    destruct (find (has_email e) (users_collection w)) as [u|]; [|done].
    destruct (User.is_verified u); [done|].
    destruct (negb _); [done|].
    destruct (is_late _ w); simpl; (split; [done | lia]).
  - rewrite authenticate_user_eq.
    destruct (find (has_email e) (users_collection w)) as [u|]; [|done].
    destruct (negb (User.is_verified u)); [done|].
    destruct (negb (verify_password _ _)); [done|].
    simpl. split; [done | lia].
  - rewrite initiate_password_reset_eq.
    destruct (find (has_email e) (users_collection w)) as [u|]; [|done].
    simpl. split; [done | lia].
  - rewrite confirm_password_reset_eq.
    destruct (find (has_email e) (users_collection w)) as [u|]; [|done].
    destruct (negb _); [done|].
    destruct (is_late _ w); simpl; (split; [done | lia]).
Qed.

Lemma run_clock rs w : clock_advanced w (run settings rs w).
Proof.
  revert w. induction rs as [|r rs IH]; intros w; simpl.
  - by split.
  - destruct (serve_clock r w) as [Hc Hr], (IH (snd (serve settings r w))) as [Hc' Hr'].
    split; [congruence | lia].
Qed.

(** An invariant of the collection that every transition keeps holds
    after any sequence of requests. *)
Lemma run_invariant (P : list User.t -> Prop) :
  (forall w l, P (users_collection w) -> transition w l -> P l) ->
  forall rs w, P (users_collection w) -> P (users_collection (run settings rs w)).
Proof.
  intros Hstep rs. induction rs as [|r rs IH]; intros w Hw; simpl; [done|].
  apply IH. eapply Hstep; [exact Hw | apply serve_transition].
Qed.

(** *** Emails are unique *)

Lemma transition_emails w l :
  transition w l ->
  emails l = emails (users_collection w)
  \/ exists u, l = (users_collection w ++ [u])%list
              /\ User.email u ∉ emails (users_collection w).
Proof.
  intros [|u Hf _ _ _|e u t _ _ _|e tok exp t|e h t].
  - by left.
  - right. exists u. split; [done|]. by apply find_one_None.
  - left. by apply emails_update_first.
  - left. by apply emails_update_first.
  - left. by apply emails_update_first.
Qed.

Lemma transition_NoDup w l :
  NoDup (emails (users_collection w)) -> transition w l -> NoDup (emails l).
Proof.
  intros Hnd Ht. destruct (transition_emails w l Ht) as [->|(u & -> & Hu)]; [done|].
  unfold emails in *. rewrite fmap_app. apply NoDup_app. split; [done|].
  split; [|apply NoDup_singleton].
  intros x Hx Hx'. apply list_elem_of_singleton in Hx'. by subst x.
Qed.

Lemma transition_emails_grow w l e :
  transition w l -> e ∈ emails (users_collection w) -> e ∈ emails l.
Proof.
  intros Ht He. destruct (transition_emails w l Ht) as [->|(u & -> & Hu)]; [done|].
  unfold emails in *. rewrite fmap_app. apply elem_of_app. by left.
Qed.

Lemma run_NoDup rs w :
  NoDup (emails (users_collection w)) ->
  NoDup (emails (users_collection (run settings rs w))).
Proof.
  apply (run_invariant (fun l => NoDup (emails l))). intros ? ?. apply transition_NoDup.
Qed.

Lemma run_emails_grow rs w e :
  e ∈ emails (users_collection w) -> e ∈ emails (users_collection (run settings rs w)).
Proof.
  apply (run_invariant (fun l => e ∈ emails l)).
  intros w' l He Ht. by eapply transition_emails_grow.
Qed.

Lemma register_user_registers e p f a d w :
  e ∈ emails (users_collection (snd (register_user settings e p f a d w))).
Proof.
  destruct (find (has_email e) (users_collection w)) as [u|] eqn:Hf.
  - rewrite (register_user_existing _ _ _ _ _ _ u Hf). simpl.
    apply find_some in Hf as [Hin Hu]. apply has_email_true in Hu. subst e.
    unfold emails. apply list_elem_of_fmap_2. by apply list_elem_of_In.
  - rewrite register_user_fresh by done. simpl.
    unfold emails. rewrite fmap_app. apply elem_of_app. right. simpl.
    apply list_elem_of_singleton. done.
Qed.

Lemma run_registered rs w e p f a d :
  Register e p f a d ∈ rs -> e ∈ emails (users_collection (run settings rs w)).
Proof.
  revert w. induction rs as [|r rs IH]; intros w Hin; simpl.
  - by apply elem_of_nil in Hin.
  - apply elem_of_cons in Hin as [<-|Hin]; [|by apply IH].
    apply run_emails_grow. simpl. apply register_user_registers.
Qed.

Lemma register_user_conflict e p f a d w :
  e ∈ emails (users_collection w) ->
  register_user settings e p f a d w = (Failure "User already exists", w).
Proof.
  intros He. destruct (find (has_email e) (users_collection w)) as [u|] eqn:Hf.
  - by eapply register_user_existing.
  - by apply find_one_None in Hf.
Qed.

(** C1.  Registration fails with "User already exists", and changes
    nothing, whenever the collection holds an account with the given
    email; and from a collection in which no two accounts share an email
    (the empty one of a fresh deployment, say), any sequence of requests
    leaves a collection in which no two accounts share an email and every
    email a [Register] of the sequence named is held by exactly one
    account.  In particular a second registration of an email fails and
    leaves that one account. *)
Theorem register_one_account_per_email rs w :
  NoDup (emails (users_collection w)) ->
  let w' := run settings rs w in
  NoDup (emails (users_collection w'))
  /\ (forall e p f a d, Register e p f a d ∈ rs ->
       count_documents e (users_collection w') = 1%nat)
  /\ (forall e p f a d, e ∈ emails (users_collection w') ->
       register_user settings e p f a d w' = (Failure "User already exists", w'))
  /\ (forall e p f a d p' f' a' d', Register e p f a d ∈ rs ->
       let w'' := snd (register_user settings e p' f' a' d' w') in
       fst (register_user settings e p' f' a' d' w') = Failure "User already exists"
       /\ count_documents e (users_collection w'') = 1%nat).
Proof.
  intros Hnd w'. assert (NoDup (emails (users_collection w'))) as Hnd'
    by by apply run_NoDup.
  assert (forall e p f a d, Register e p f a d ∈ rs ->
            count_documents e (users_collection w') = 1%nat) as Hone.
  { intros e p f a d Hin. apply count_documents_NoDup; [done|].
    by eapply run_registered. }
  repeat split; try done.
  - intros e p f a d He. by apply register_user_conflict.
  - rewrite register_user_conflict; [done|]. by eapply run_registered.
  - rewrite register_user_conflict by (by eapply run_registered). simpl. eauto.
Qed.

(** *** One request, seen from one account *)

Lemma transition_account w l e u :
  transition w l ->
  find (has_email e) (users_collection w) = Some u ->
  exists u', find (has_email e) l = Some u' /\ account_step w u u'.
Proof.
  intros Ht Hf. destruct Ht as [|v Hv _ _ _|e' v t Hv Hu Hl|e' tok exp t|e' h t].
  - exists u. split; [done | constructor].
  - exists u. rewrite find_one_app, Hf. split; [done | constructor].
  - rewrite find_update_first, Hf by done. simpl. case_bool_decide as E.
    + subst e'. assert (v = u) by congruence. subst v.
      eexists. split; [done|]. by constructor.
    + exists u. split; [done | constructor].
  - rewrite find_update_first, Hf by done. simpl. case_bool_decide as E.
    + eexists. split; [done | constructor].
    + exists u. split; [done | constructor].
  - rewrite find_update_first, Hf by done. simpl. case_bool_decide as E.
    + eexists. split; [done | constructor].
    + exists u. split; [done | constructor].
Qed.

Lemma serve_account r w e u :
  find (has_email e) (users_collection w) = Some u ->
  exists u', find (has_email e) (users_collection (snd (serve settings r w))) = Some u'
             /\ account_step w u u'.
Proof. intros Hf. eapply transition_account; [apply serve_transition | done]. Qed.

(** Once verified, verified for good. *)
Lemma run_verified rs w e u :
  find (has_email e) (users_collection w) = Some u ->
  User.is_verified u = true ->
  exists u', find (has_email e) (users_collection (run settings rs w)) = Some u'
             /\ User.is_verified u' = true.
Proof.
  revert w u. induction rs as [|r rs IH]; intros w u Hf Hv; simpl; [eauto|].
  destruct (serve_account r w e u Hf) as (u' & Hf' & Hstep).
  apply (IH _ u' Hf'). destruct Hstep; simpl; congruence.
Qed.

Lemma serve_code_lapsed r w e :
  monotone_clock w -> code_lapsed e w -> code_lapsed e (snd (serve settings r w)).
Proof.
  intros Hm (u & x & k & Hf & Hv & Hx & Hk & Hr).
  destruct (serve_account r w e u Hf) as (u' & Hf' & Hstep).
  destruct (serve_clock r w) as [Hc Hr'].
  assert (is_late (User.verification_code_expires_at u) w = true) as Hl.
  { rewrite Hx. simpl. apply Z.ltb_lt. unfold now.
    eapply Z.lt_le_trans; [exact Hk | by apply Hm]. }
  exists u', x, k. rewrite Hc.
  destruct Hstep as [|t Hu Hl'|tok exp t|h t]; simpl.
  - repeat split; try done. lia.
  - congruence.
  - repeat split; try done. lia.
  - repeat split; try done. lia.
Qed.

Lemma run_code_lapsed rs w e :
  monotone_clock w -> code_lapsed e w -> code_lapsed e (run settings rs w).
Proof.
  revert w. induction rs as [|r rs IH]; intros w Hm Hl; simpl; [done|].
  apply IH; [|by apply serve_code_lapsed].
  unfold monotone_clock. by rewrite (proj1 (serve_clock r w)).
Qed.

Lemma code_lapsed_rejected e c w :
  monotone_clock w -> code_lapsed e w ->
  success (fst (verify_email e c w)) = false.
Proof.
  intros Hm (u & x & k & Hf & Hv & Hx & Hk & Hr).
  rewrite verify_email_eq, Hf, Hv, Hx. destruct (negb _); [done|]. simpl.
  assert ((x <? now w)%Z = true) as ->; [|done].
  apply Z.ltb_lt. unfold now. eapply Z.lt_le_trans; [exact Hk | by apply Hm].
Qed.

Lemma verify_email_success e c w :
  success (fst (verify_email e c w)) = true ->
  exists u t,
    find (has_email e) (users_collection w) = Some u
    /\ User.is_verified u = false
    /\ User.verification_code u = Some c
    /\ is_late (User.verification_code_expires_at u) w = false
    /\ fst (verify_email e c w) = Success "Email verified successfully"
    /\ users_collection (snd (verify_email e c w))
       = update_first e (set_verified t) (users_collection w).
Proof.
  rewrite verify_email_eq.
  destruct (find (has_email e) (users_collection w)) as [u|]; [|done].
  destruct (User.is_verified u) eqn:Hv; [done|].
  case_bool_decide as Hc; simpl; [|done].
  destruct (is_late _ w) eqn:Hl; simpl; [done|]. intros _.
  by eexists _, _.
Qed.

(** C2.  A verification code is single-use.  A successful [verify_email]
    leaves the account verified with its code and the expiry of the code
    cleared, and from then on, whatever requests are served in between,
    every [verify_email] on that account, with the same code or another,
    fails with "User already verified".  And when the code of an
    unverified account has expired, [verify_email] with it fails with
    "Verification code expired", and, the clock not running backwards,
    no [verify_email] on that account succeeds ever after. *)
Theorem verification_code_single_use e c w :
  (success (fst (verify_email e c w)) = true ->
   let w1 := snd (verify_email e c w) in
   (exists u, find (has_email e) (users_collection w1) = Some u
              /\ User.is_verified u = true
              /\ User.verification_code u = None
              /\ User.verification_code_expires_at u = None)
   /\ forall rs c',
       fst (verify_email e c' (run settings rs w1)) = Failure "User already verified")
  /\ (forall u x,
       monotone_clock w ->
       find (has_email e) (users_collection w) = Some u ->
       User.is_verified u = false ->
       User.verification_code u = Some c ->
       User.verification_code_expires_at u = Some x ->
       (x < now w)%Z ->
       fst (verify_email e c w) = Failure "Verification code expired"
       /\ forall rs c', success (fst (verify_email e c' (run settings rs w))) = false).
Proof.
  split.
  - intros Hs w1. destruct (verify_email_success e c w Hs)
      as (u & t & Hf & Hv & Hc & Hl & _ & Hw1).
    assert (find (has_email e) (users_collection w1) = Some (set_verified t u)) as Hf1.
    { unfold w1. rewrite Hw1, find_update_first_eq, Hf; done. }
    split; [by eexists|].
    intros rs c'.
    destruct (run_verified rs w1 e _ Hf1 eq_refl) as (u' & Hf' & Hv').
    by rewrite verify_email_eq, Hf', Hv'.
  - intros u x Hm Hf Hv Hc Hx Hlt. split.
    + rewrite verify_email_eq, Hf, Hv, Hc, Hx.
      rewrite bool_decide_eq_true_2 by done. simpl.
      by apply Z.ltb_lt in Hlt as ->.
    + intros rs c'. apply code_lapsed_rejected.
      * unfold monotone_clock. by rewrite (proj1 (run_clock rs w)).
      * apply run_code_lapsed; [done|]. exists u, x, (clock_reads w). by repeat split.
Qed.

(** *** Sign-in *)

Lemma signin_eq e password w :
  signin settings e password w =
  match find (has_email e) (users_collection w) with
  | None => (HTTPException 401 "Invalid credentials", w)
  | Some user =>
      if negb (User.is_verified user) then (HTTPException 401 "Email not verified", w)
      else if negb (verify_password password (User.password_hash user))
      then (HTTPException 401 "Invalid credentials", w)
      else
        (SignInResponse
           (fst (create_access_token settings {["sub" := CStr e]} None w))
           "bearer" (jwt_expiration_hours settings * 3600) e,
         later (users_collection w) (next_oid w) 1 0 0 w)
  end.
Proof.
  unfold signin, bind. rewrite authenticate_user_eq.
  destruct (find _ _) as [user|]; [|done].
  destruct (negb (User.is_verified user)); [done|].
  by destruct (negb (verify_password _ _)).
Qed.

(** C3.  An account with [is_verified = false] cannot sign in: whatever
    password is submitted, the right one included, [authenticate_user]
    returns the failure "Email not verified", which carries no access
    token, the route answers 401 with that detail, and nothing changes. *)
Theorem unverified_cannot_sign_in e password w u :
  find (has_email e) (users_collection w) = Some u ->
  User.is_verified u = false ->
  authenticate_user settings e password w = (Failure "Email not verified", w)
  /\ signin settings e password w = (HTTPException 401 "Email not verified", w).
Proof.
  intros Hf Hv. by rewrite authenticate_user_eq, signin_eq, Hf, Hv.
Qed.

(** C7, as the code has it.  At the sign-in boundary an unknown email
    and a wrong password on a verified account get one and the same
    answer, 401 "Invalid credentials", and leave the world as it was, so
    these two runs cannot be told apart; an account that is not verified
    gets its own answer, 401 "Email not verified". *)
Theorem signin_failure_outcomes e password w :
  (find (has_email e) (users_collection w) = None
   \/ (exists u, find (has_email e) (users_collection w) = Some u
                 /\ User.is_verified u = true
                 /\ verify_password password (User.password_hash u) = false) ->
   signin settings e password w = (HTTPException 401 "Invalid credentials", w))
  /\ (forall u, find (has_email e) (users_collection w) = Some u ->
       User.is_verified u = false ->
       signin settings e password w = (HTTPException 401 "Email not verified", w)).
Proof.
  split.
  - intros [Hf|(u & Hf & Hv & Hp)]; rewrite signin_eq, Hf; [done|].
    by rewrite Hv, Hp.
  - intros u Hf Hv. by rewrite signin_eq, Hf, Hv.
Qed.

(** *** Failures write nothing *)

(** C10.  Whenever a method of the service returns a failure, it has
    inserted nothing and updated nothing: the [users] collection is what
    it was before the call. *)
Theorem failure_leaves_collection r w :
  success (fst (serve settings r w)) = false ->
  users_collection (snd (serve settings r w)) = users_collection w.
Proof.
  destruct r as [e p f a d|e c|e p|e|e tok p]; simpl.
  - destruct (find (has_email e) (users_collection w)) as [u|] eqn:Hf.
    + by rewrite (register_user_existing _ _ _ _ _ _ u Hf).
    + by rewrite register_user_fresh.
  - rewrite verify_email_eq.
    destruct (find (has_email e) (users_collection w)) as [u|]; [|done].
    destruct (User.is_verified u); [done|].
    destruct (negb _); [done|].
    by destruct (is_late _ w).
  - rewrite authenticate_user_eq.
    destruct (find (has_email e) (users_collection w)) as [u|]; [|done].
    destruct (negb (User.is_verified u)); [done|].
    by destruct (negb (verify_password _ _)).
  - rewrite initiate_password_reset_eq.
    by destruct (find (has_email e) (users_collection w)).
  - rewrite confirm_password_reset_eq.
    destruct (find (has_email e) (users_collection w)) as [u|]; [|done].
    destruct (negb _); [done|].
    by destruct (is_late _ w).
Qed.

(** *** Requesting a password reset *)

(** C5.  [initiate_password_reset] reports success for every email, and
    the route answers every email with the same response.  For an email
    no account has, nothing happens at all: no document changes and no
    mail is sent.  For an email an account has, the service returns the
    token it has just drawn from the generator, 32 draws further on, and
    the account now stores, in [password_reset_token], that token and,
    in [password_reset_token_expires_at], the instant
    [password_reset_expiration_hours] after the clock, to the
    millisecond; its email, password hash and verification state are as
    before. *)
Theorem password_reset_always_succeeds e w :
  fst (password_reset settings e w)
  = PasswordResetResponse "Password reset email sent successfully"
  /\ success (fst (initiate_password_reset settings e w)) = true
  /\ match find (has_email e) (users_collection w) with
     | None => snd (password_reset settings e w) = w
     | Some u =>
         let tok := fst (generate_reset_token w) in
         let w' := snd (password_reset settings e w) in
         find (has_email e) (users_collection w')
         = Some (set_reset_token tok
                   (now w + timedelta_hours (password_reset_expiration_hours settings))
                   (clock w (1 + clock_reads w)) u)
         /\ (exists u',
               find (has_email e) (users_collection w') = Some u'
               /\ User.password_reset_token u' = Some tok
               /\ User.password_reset_token_expires_at u'
                  = Some (bson_datetime
                            (now w + timedelta_hours
                                       (password_reset_expiration_hours settings)))
               /\ User.email u' = User.email u
               /\ User.password_hash u' = User.password_hash u
               /\ User.is_verified u' = User.is_verified u)
         /\ fst (initiate_password_reset settings e w)
            = ResetIssued tok "Password reset email sent"
         /\ random_draws w' = (32 + random_draws w)%nat
     end.
Proof.
  unfold password_reset, bind. rewrite initiate_password_reset_eq.
  destruct (find (has_email e) (users_collection w)) as [u|] eqn:Hf; [|done].
  cbn [success get_reset_token fst snd].
  set (tok := fst (generate_reset_token w)).
  assert (find (has_email e)
            (update_first e
               (set_reset_token tok
                  (now w + timedelta_hours (password_reset_expiration_hours settings))
                  (clock w (1 + clock_reads w)))
               (users_collection w))
          = Some (set_reset_token tok
                    (now w + timedelta_hours (password_reset_expiration_hours settings))
                    (clock w (1 + clock_reads w)) u)) as Hf'
    by by rewrite find_update_first_eq, Hf.
  destruct (bool_decide (tok = ""));
    cbn [ret send fst snd users_collection random_draws later];
    (split; [done|]); (split; [done|]); (split; [exact Hf'|]);
    (split; [eexists; split; [exact Hf'|]; by repeat split | done]).
Qed.

(** *** The verification code and the state of the account *)

Lemma Forall_update_first (P : User.t -> Prop) e f l :
  (forall u, P u -> P (f u)) -> Forall P l -> Forall P (update_first e f l).
Proof.
  intros Hf. induction 1 as [|u l Hu Hl IH]; simpl; [done|].
  destruct (has_email e u); constructor; auto.
Qed.

Lemma transition_code_while_unverified w l :
  Forall code_while_unverified (users_collection w) ->
  transition w l ->
  Forall code_while_unverified l.
Proof.
  intros Hw [|u _ Hv Hc Hx|e u t _ _ _|e tok exp t|e h t]; [done|..].
  - apply Forall_app. split; [done|]. constructor; [|done].
    unfold code_while_unverified. by rewrite Hv.
  - apply Forall_update_first; [|done]. by intros v _.
  - apply Forall_update_first; [|done]. by intros v Hv.
  - apply Forall_update_first; [|done]. by intros v Hv.
Qed.

(** C8, as the code has it.  In every state the service reaches from a
    collection in which the code is stored exactly for the accounts that
    are not verified (the empty collection, say), an account's
    [verification_code] is non-null if and only if the account is not
    verified, and null if and only if it is verified; the same holds of
    the expiry of the code.  Nothing clears the code of an account when
    it expires. *)
Theorem verification_code_iff_unverified rs w u :
  Forall code_while_unverified (users_collection w) ->
  u ∈ users_collection (run settings rs w) ->
  (User.verification_code u <> None <-> User.is_verified u = false)
  /\ (User.verification_code u = None <-> User.is_verified u = true)
  /\ (User.verification_code_expires_at u = None <-> User.is_verified u = true).
Proof.
  intros Hw Hu.
  assert (Forall code_while_unverified (users_collection (run settings rs w))) as Hall.
  { revert Hw. apply (run_invariant (Forall code_while_unverified)).
    apply transition_code_while_unverified. }
  rewrite Forall_forall in Hall. specialize (Hall u Hu).
  unfold code_while_unverified in Hall.
  destruct (User.is_verified u).
  - destruct Hall as [-> ->]. by repeat split.
  - destruct Hall as [[c ->] [x ->]]. by repeat split.
Qed.

(** *** Confirming a password reset *)

(** C6, as the code has it.  On an existing account
    [confirm_password_reset] fails with "Invalid reset token", changing
    nothing, when the presented token is not the stored one; fails with
    "Reset token expired", writing nothing, when the token matches and
    its expiry is behind the clock; and on success the account stores
    the hash of the new password, has its token and the expiry of the
    token cleared, and is verified or not as it was.  Afterwards, if the
    account is verified, a password authenticates exactly when the
    hasher accepts it against the new hash: the new password does, as
    far as the hasher verifies a password against its own hash, and the
    old one does not unless the hasher accepts it against the new hash,
    as it does when the new password is the old one.  If the account is
    not verified, every sign-in is still refused with "Email not
    verified", the new password included. *)
Theorem confirm_password_reset_outcomes e tok new_password w u :
  find (has_email e) (users_collection w) = Some u ->
  (User.password_reset_token u <> Some tok ->
   confirm_password_reset e tok new_password w = (Failure "Invalid reset token", w))
  /\ (forall x,
       User.password_reset_token u = Some tok ->
       User.password_reset_token_expires_at u = Some x ->
       (x < now w)%Z ->
       fst (confirm_password_reset e tok new_password w) = Failure "Reset token expired"
       /\ users_collection (snd (confirm_password_reset e tok new_password w))
          = users_collection w)
  /\ (success (fst (confirm_password_reset e tok new_password w)) = true ->
      let w' := snd (confirm_password_reset e tok new_password w) in
      let h := hash_with_salt (salts w) new_password in
      (exists u', find (has_email e) (users_collection w') = Some u'
                  /\ User.password_hash u' = h
                  /\ User.password_reset_token u' = None
                  /\ User.password_reset_token_expires_at u' = None
                  /\ User.is_verified u' = User.is_verified u)
      /\ (User.is_verified u = true ->
          verify_password new_password h = true ->
          exists token,
            fst (authenticate_user settings e new_password w')
            = Authenticated token "bearer" (jwt_expiration_hours settings * 3600) e)
      /\ (forall old,
            verify_password old h = false ->
            success (fst (authenticate_user settings e old w')) = false)
      /\ (User.is_verified u = true ->
          forall password,
            success (fst (authenticate_user settings e password w'))
            = verify_password password h)
      /\ (User.is_verified u = false ->
          forall password,
            authenticate_user settings e password w'
            = (Failure "Email not verified", w'))).
Proof.
  intros Hf. rewrite confirm_password_reset_eq, Hf. split; [|split].
  - intros Hne. by rewrite bool_decide_eq_false_2.
  - intros x Htok Hx Hlt. rewrite bool_decide_eq_true_2 by done.
    rewrite Hx. simpl. by apply Z.ltb_lt in Hlt as ->.
  - case_bool_decide; simpl; [|done].
    destruct (is_late _ w); simpl; [done|]. intros _.
    set (t := clock w _). set (h := hash_with_salt (salts w) new_password).
    assert (find (has_email e) (update_first e (set_password h t) (users_collection w))
            = Some (set_password h t u)) as Hf'
      by by rewrite find_update_first_eq, Hf.
    split; [by eexists|]. split; [|split; [|split]].
    + intros Hv Hp. rewrite authenticate_user_eq. simpl. rewrite Hf'. simpl.
      rewrite Hv, Hp. simpl. by eexists.
    + intros old Hp. rewrite authenticate_user_eq. simpl. rewrite Hf'. simpl.
      destruct (negb (User.is_verified u)); [done|]. by rewrite Hp.
    + intros Hv password. rewrite authenticate_user_eq. simpl. rewrite Hf'. simpl.
      rewrite Hv. simpl. by destruct (verify_password password h).
    + intros Hv password. rewrite authenticate_user_eq. simpl. rewrite Hf'. simpl.
      by rewrite Hv.
Qed.

(** *** Tokens *)

Lemma timegm_mono t t' : (t <= t')%Z -> (timegm t <= timegm t')%Z.
Proof. intros Hle. unfold timegm. apply Z.div_le_mono; [done | exact Hle]. Qed.

(** The payload [jwt.encode] signs for [{"sub": subject}] with the
    expiry [expire]. *)
Lemma access_token_claims subject expire :
  jwt_encode (<["exp" := CDatetime expire]> {["sub" := CStr subject]})
    (jwt_secret_key settings) (jwt_algorithm settings)
  = JWS (jwt_algorithm settings) (jwt_secret_key settings)
      (<["exp" := CInt (timegm expire)]>
         (<["exp" := CDatetime expire]> {["sub" := CStr subject]})).
Proof.
  unfold jwt_encode. f_equal.
Qed.

Lemma create_access_token_eq subject ttl w :
  ttl <> 0%Z ->
  fst (create_access_token settings {["sub" := CStr subject]} (Some ttl) w)
  = JWS (jwt_algorithm settings) (jwt_secret_key settings)
      (<["exp" := CInt (timegm (now w + ttl))]>
         (<["exp" := CDatetime (now w + ttl)]> {["sub" := CStr subject]})).
Proof.
  intros Hne. unfold create_access_token, bind.
  apply Z.eqb_neq in Hne as ->. simpl. apply access_token_claims.
Qed.

Lemma jwt_decode_eq alg k claims key algs w :
  fst (jwt_decode (JWS alg k claims) key algs w)
  = (if bool_decide (alg ∈ algs) && bool_decide (k = key)
        && claims_accepted claims (now w)
     then Some claims else None)
  /\ users_collection (snd (jwt_decode (JWS alg k claims) key algs w))
     = users_collection w.
Proof.
  unfold jwt_decode, claims_accepted, not_yet_valid, has_expired, bind.
  destruct (bool_decide (alg ∈ algs)), (bool_decide (k = key)); cbn [negb andb];
    try done.
  destruct (numeric_or_absent (claims !! "iat")); cbn [negb andb]; [|done].
  destruct (claims !! "nbf") as [c|].
  - destruct (python_int c) as [n|]; cbn [ret utcnow fst snd negb andb]; [|done].
    destruct (timegm (now w) <? n)%Z; cbn [ret fst snd negb andb]; [done|].
    destruct (claims !! "exp") as [c'|]; [destruct (python_int c') as [e|]|];
      cbn [ret fst snd negb andb]; try done;
      try (destruct (e <? timegm (now w))%Z; cbn [ret fst snd negb andb]; try done);
      destruct (absent (claims !! "aud")); cbn [ret fst snd negb andb]; try done;
      destruct (string_or_absent (claims !! "sub")); cbn [ret fst snd negb andb];
        try done;
      destruct (string_or_absent (claims !! "jti")); cbn [ret fst snd negb andb];
        try done;
      destruct (absent (claims !! "at_hash")); cbn [ret fst snd negb andb]; done.
  - destruct (claims !! "exp") as [c'|]; [destruct (python_int c') as [e|]|];
      cbn [ret utcnow fst snd negb andb]; try done;
      try (destruct (e <? timegm (now w))%Z; cbn [ret fst snd negb andb]; try done);
      destruct (absent (claims !! "aud")); cbn [ret fst snd negb andb]; try done;
      destruct (string_or_absent (claims !! "sub")); cbn [ret fst snd negb andb];
        try done;
      destruct (string_or_absent (claims !! "jti")); cbn [ret fst snd negb andb];
        try done;
      destruct (absent (claims !! "at_hash")); cbn [ret fst snd negb andb]; done.
Qed.

Lemma verify_token_eq alg key claims w :
  fst (verify_token settings (JWS alg key claims) w) =
  if bool_decide (alg ∈ [jwt_algorithm settings])
     && bool_decide (key = jwt_secret_key settings)
     && claims_accepted claims (now w)
  then match claims !! "sub" with
       | Some _ => Some claims
       | None => None
       end
  else None.
Proof.
  unfold verify_token, bind.
  destruct (jwt_decode_eq alg key claims (jwt_secret_key settings)
              [jwt_algorithm settings] w) as [Hd _].
  destruct (jwt_decode _ _ _ w) as [decoded w'']. cbn [fst] in Hd. subst decoded.
  destruct (_ && _ && claims_accepted claims (now w)); [|done].
  by destruct (claims !! "sub").
Qed.

(** The claims of a token the service issues pass every check until the
    expiry. *)
Lemma issued_claims_accepted subject expire t :
  (timegm t <= timegm expire)%Z ->
  claims_accepted
    (<["exp" := CInt (timegm expire)]>
       (<["exp" := CDatetime expire]> {["sub" := CStr subject]})) t = true.
Proof.
  intros Hle. unfold claims_accepted.
  rewrite lookup_insert_eq.
  rewrite !lookup_insert_ne by done.
  rewrite lookup_singleton_eq.
  rewrite !lookup_singleton_ne by done.
  cbn [numeric_or_absent not_yet_valid has_expired python_int absent string_or_absent
       negb andb].
  by apply Z.ltb_ge in Hle as ->.
Qed.

(** C4.  For every subject and every positive time to live, the token
    [create_access_token] issues verifies at any instant before its
    expiry, and the verified payload carries that subject, which is what
    [get_email_from_token] returns.  And [verify_token] returns nothing
    for a token whose expiry claim lies behind the clock, read in whole
    seconds as the codec reads it, and for a token whose subject claim is
    missing or is not a string, whatever its signature. *)
Theorem issue_verify_round_trip :
  (forall subject ttl w w',
     (0 < ttl)%Z ->
     (now w' < now w + ttl)%Z ->
     let token :=
       fst (create_access_token settings {["sub" := CStr subject]} (Some ttl) w) in
     (exists payload,
        fst (verify_token settings token w') = Some payload
        /\ payload !! "sub" = Some (CStr subject))
     /\ fst (get_email_from_token settings token w') = Some (CStr subject))
  /\ (forall alg key claims e w',
       claims !! "exp" = Some (CInt e) ->
       (e < timegm (now w'))%Z ->
       fst (verify_token settings (JWS alg key claims) w') = None)
  /\ (forall alg key claims w',
       (forall s, claims !! "sub" <> Some (CStr s)) ->
       fst (verify_token settings (JWS alg key claims) w') = None).
Proof.
  split; [|split].
  - intros subject ttl w w' Httl Hnow token.
    assert (fst (verify_token settings token w')
            = Some (<["exp" := CInt (timegm (now w + ttl))]>
                      (<["exp" := CDatetime (now w + ttl)]> {["sub" := CStr subject]})))
      as Hv.
    { unfold token. rewrite create_access_token_eq by lia. rewrite verify_token_eq.
      rewrite !bool_decide_eq_true_2 by (done || apply list_elem_of_here).
      rewrite issued_claims_accepted by (apply timegm_mono; lia). cbn [andb].
      by rewrite lookup_insert_ne, lookup_insert_ne, lookup_singleton_eq. }
    assert ((<["exp" := CInt (timegm (now w + ttl))]>
               (<["exp" := CDatetime (now w + ttl)]> {["sub" := CStr subject]})
             : gmap string Claim) !! "sub" = Some (CStr subject)) as Hsub.
    { by rewrite lookup_insert_ne, lookup_insert_ne, lookup_singleton_eq. }
    split; [by eexists|].
    unfold get_email_from_token, bind.
    destruct (verify_token settings token w') as [payload w''] eqn:E.
    simpl in Hv. subst payload.
    rewrite bool_decide_eq_false_2; [done|].
    intros Hempty. rewrite Hempty in Hsub. by rewrite lookup_empty in Hsub.
  - intros alg key claims e w' He Hlt. rewrite verify_token_eq.
    destruct (bool_decide _ && bool_decide _); [|done]. cbn [andb].
    unfold claims_accepted. rewrite He. cbn [has_expired python_int].
    apply Z.ltb_lt in Hlt as ->.
    by destruct (numeric_or_absent _), (not_yet_valid _ _).
  - intros alg key claims w' Hs. rewrite verify_token_eq.
    destruct (bool_decide _ && bool_decide _); [|done]. cbn [andb].
    unfold claims_accepted.
    destruct (claims !! "sub") as [[s| |]|] eqn:E; cbn [string_or_absent].
    + by destruct (Hs s).
    + by rewrite andb_false_r.
    + by rewrite andb_false_r.
    + by destruct (_ && _).
Qed.

End Properties.

(** ** The service at work on the concrete deployment *)

Lemma fresh_world_monotone step : (0 <= step)%Z -> monotone_clock (fresh_world step).
Proof. intros Hs i j Hij. simpl. nia. Qed.

Lemma run_monotone settings `{CredentialHasher} rs w :
  monotone_clock w -> monotone_clock (run settings rs w).
Proof.
  intros Hm. unfold monotone_clock. by rewrite (proj1 (run_clock settings rs w)).
Qed.

Lemma register_one_account_per_email_witness :
  NoDup (emails (users_collection (fresh_world 1000)))
  /\ count_documents "a@x.com"
       (users_collection
          (run default_settings
             [Register "a@x.com" "password123" None None None;
              Register "a@x.com" "password456" None None None]
             (fresh_world 1000))) = 1%nat.
Proof.
  assert (NoDup (emails (users_collection (fresh_world 1000)))) as Hnd
    by apply NoDup_nil_2.
  split; [exact Hnd|].
  eapply (proj1 (proj2 (register_one_account_per_email default_settings _ _ Hnd))).
  apply list_elem_of_here.
Defined.

Lemma verification_code_single_use_witness :
  success (fst (verify_email "a@x.com" "307418" registered)) = true
  /\ fst (verify_email "a@x.com" "307418"
            (snd (verify_email "a@x.com" "307418" registered)))
     = Failure "User already verified"
  /\ monotone_clock registered_late
  /\ fst (verify_email "a@x.com" "307418" registered_late)
     = Failure "Verification code expired"
  /\ success (fst (verify_email "a@x.com" "307418"
                     (run default_settings [SignIn "a@x.com" "password123"]
                        registered_late))) = false.
Proof.
  assert (success (fst (verify_email "a@x.com" "307418" registered)) = true) as Hs
    by (vm_compute; reflexivity).
  assert (monotone_clock registered_late) as Hm
    by (apply run_monotone, fresh_world_monotone; lia).
  destruct (verification_code_single_use default_settings
              "a@x.com" "307418" registered) as [Hused _].
  destruct (verification_code_single_use default_settings
              "a@x.com" "307418" registered_late) as [_ Hlapsed].
  assert (find (has_email "a@x.com") (users_collection registered_late)
          = Some (account 1000000000 2000000000)) as Hf
    by (vm_compute; reflexivity).
  destruct (Hlapsed _ 900000000%Z Hm Hf eq_refl eq_refl eq_refl)
    as [Hnow Hlater]; [vm_compute; reflexivity|].
  split; [exact Hs|]. split; [exact (proj2 (Hused Hs) [] "307418")|].
  split; [exact Hm|]. split; [exact Hnow|]. apply Hlater.
Defined.

Lemma unverified_cannot_sign_in_witness :
  (exists u, find (has_email "a@x.com") (users_collection registered) = Some u
             /\ User.is_verified u = false)
  /\ signin default_settings "a@x.com" "password123" registered
     = (HTTPException 401 "Email not verified", registered).
Proof.
  assert (find (has_email "a@x.com") (users_collection registered)
          = Some (account 1000 2000)) as Hf
    by (vm_compute; reflexivity).
  split; [exists (account 1000 2000); split; [exact Hf | reflexivity]|].
  exact (proj2 (unverified_cannot_sign_in default_settings
                  "a@x.com" "password123" registered _ Hf eq_refl)).
Defined.

Lemma issue_verify_round_trip_witness :
  (0 < 3600000000)%Z
  /\ (now (fresh_world 1000) < now (fresh_world 1000) + 3600000000)%Z
  /\ fst (get_email_from_token default_settings
            (fst (create_access_token default_settings
                    {["sub" := CStr "a@x.com"]} (Some 3600000000%Z) (fresh_world 1000)))
            (fresh_world 1000))
     = Some (CStr "a@x.com")
  /\ fst (verify_token default_settings
            (JWS "HS256" "your-jwt-secret-key-change-in-production"
               (<["exp" := CInt 10]> {["sub" := CStr "a@x.com"]}))
            registered_late) = None
  /\ fst (verify_token default_settings
            (JWS "HS256" "your-jwt-secret-key-change-in-production"
               {["sub" := CInt 7]})
            registered) = None.
Proof.
  destruct (issue_verify_round_trip default_settings) as (Hround & Hpast & Hsub).
  assert (0 < 3600000000)%Z as Httl by lia.
  assert (now (fresh_world 1000) < now (fresh_world 1000) + 3600000000)%Z as Hnow
    by (vm_compute; reflexivity).
  split; [exact Httl|]. split; [exact Hnow|].
  split; [exact (proj2 (Hround "a@x.com" _ _ _ Httl Hnow))|].
  split.
  - apply (Hpast _ _ _ 10%Z); vm_compute; reflexivity.
  - apply Hsub. intros s. vm_compute. discriminate.
Defined.

(** The account after its email is verified and a reset is requested. *)
Lemma reset_requested_account :
  find (has_email "a@x.com") (users_collection reset_requested)
  = Some (set_reset_token "T07elszGNU18fmtAHOV29gnuBIPW3aho" 3600005000 6000
            (set_verified 4000 (account 1000 2000))).
Proof. vm_compute. reflexivity. Qed.

(** C6, where the claim fails: an account that asked for a reset without
    verifying its email confirms the reset, and the new password does
    not authenticate. *)
Lemma new_password_rejected_when_unverified :
  fst (confirm_password_reset "a@x.com" "T07elszGNU18fmtAHOV29gnuBIPW3aho"
         "newpassword1" reset_requested_unverified)
  = Success "Password reset successfully"
  /\ fst (authenticate_user default_settings "a@x.com" "newpassword1"
            (snd (confirm_password_reset "a@x.com" "T07elszGNU18fmtAHOV29gnuBIPW3aho"
                    "newpassword1" reset_requested_unverified)))
     = Failure "Email not verified".
Proof. split; vm_compute; reflexivity. Qed.

(** And the old password still authenticates when the new one is the
    old one. *)
Lemma old_password_kept_when_reused :
  fst (confirm_password_reset "a@x.com" "T07elszGNU18fmtAHOV29gnuBIPW3aho"
         "password123" reset_requested)
  = Success "Password reset successfully"
  /\ success
       (fst (authenticate_user default_settings "a@x.com" "password123"
               (snd (confirm_password_reset "a@x.com"
                       "T07elszGNU18fmtAHOV29gnuBIPW3aho" "password123"
                       reset_requested)))) = true.
Proof. split; vm_compute; reflexivity. Qed.

Lemma reset_requested_unverified_account :
  find (has_email "a@x.com") (users_collection reset_requested_unverified)
  = Some (set_reset_token "T07elszGNU18fmtAHOV29gnuBIPW3aho" 3600003000 4000
            (account 1000 2000)).
Proof. vm_compute. reflexivity. Qed.

Lemma confirm_password_reset_outcomes_witness :
  success (fst (confirm_password_reset "a@x.com" "T07elszGNU18fmtAHOV29gnuBIPW3aho"
                  "newpassword1" reset_requested)) = true
  /\ (exists token,
        fst (authenticate_user default_settings "a@x.com" "newpassword1"
               (snd (confirm_password_reset "a@x.com"
                       "T07elszGNU18fmtAHOV29gnuBIPW3aho" "newpassword1"
                       reset_requested)))
        = Authenticated token "bearer" 86400 "a@x.com")
  /\ success
       (fst (authenticate_user default_settings "a@x.com" "password123"
               (snd (confirm_password_reset "a@x.com"
                       "T07elszGNU18fmtAHOV29gnuBIPW3aho" "newpassword1"
                       reset_requested)))) = false
  /\ confirm_password_reset "a@x.com" "wrong" "newpassword1" reset_requested
     = (Failure "Invalid reset token", reset_requested)
  /\ success (fst (confirm_password_reset "a@x.com" "T07elszGNU18fmtAHOV29gnuBIPW3aho"
                     "newpassword1" reset_requested_unverified)) = true
  /\ fst (authenticate_user default_settings "a@x.com" "newpassword1"
            (snd (confirm_password_reset "a@x.com"
                    "T07elszGNU18fmtAHOV29gnuBIPW3aho" "newpassword1"
                    reset_requested_unverified)))
     = Failure "Email not verified".
Proof.
  destruct (confirm_password_reset_outcomes default_settings
              "a@x.com" "T07elszGNU18fmtAHOV29gnuBIPW3aho" "newpassword1"
              reset_requested _ reset_requested_account) as (_ & _ & Hok).
  destruct (confirm_password_reset_outcomes default_settings
              "a@x.com" "wrong" "newpassword1"
              reset_requested _ reset_requested_account) as (Hbad & _ & _).
  destruct (confirm_password_reset_outcomes default_settings
              "a@x.com" "T07elszGNU18fmtAHOV29gnuBIPW3aho" "newpassword1"
              reset_requested_unverified _ reset_requested_unverified_account)
    as (_ & _ & Hun).
  assert (success (fst (confirm_password_reset "a@x.com"
                          "T07elszGNU18fmtAHOV29gnuBIPW3aho" "newpassword1"
                          reset_requested)) = true) as Hs
    by (vm_compute; reflexivity).
  assert (success (fst (confirm_password_reset "a@x.com"
                          "T07elszGNU18fmtAHOV29gnuBIPW3aho" "newpassword1"
                          reset_requested_unverified)) = true) as Hs'
    by (vm_compute; reflexivity).
  destruct (Hok Hs) as (_ & Hnew & Hold & _ & _).
  destruct (Hun Hs') as (_ & _ & _ & _ & Hstill).
  split; [exact Hs|]. split; [|split; [|split; [|split]]].
  - apply Hnew; vm_compute; reflexivity.
  - apply Hold. vm_compute. reflexivity.
  - apply Hbad. discriminate.
  - exact Hs'.
  - exact (f_equal fst (Hstill eq_refl "newpassword1")).
Defined.

(** C7, where the claim fails: signing in to an account that is not
    verified is answered differently from signing in with an unknown
    email. *)
Lemma signin_unverified_distinguishable :
  fst (signin default_settings "a@x.com" "password123" registered)
  = HTTPException 401 "Email not verified"
  /\ fst (signin default_settings "nobody@x.com" "password123" registered)
     = HTTPException 401 "Invalid credentials"
  /\ fst (signin default_settings "a@x.com" "password123" registered)
     <> fst (signin default_settings "nobody@x.com" "password123" registered).
Proof.
  split; [vm_compute; reflexivity|]. split; [vm_compute; reflexivity|].
  vm_compute. discriminate.
Qed.

Lemma signin_failure_outcomes_witness :
  find (has_email "nobody@x.com") (users_collection registered) = None
  /\ signin default_settings "nobody@x.com" "password123" registered
     = (HTTPException 401 "Invalid credentials", registered)
  /\ signin default_settings "a@x.com" "not-the-password" reset_requested
     = (HTTPException 401 "Invalid credentials", reset_requested).
Proof.
  assert (find (has_email "nobody@x.com") (users_collection registered) = None) as Hf
    by (vm_compute; reflexivity).
  split; [exact Hf|]. split.
  - apply (proj1 (signin_failure_outcomes default_settings _ "password123" _)).
    by left.
  - apply (proj1 (signin_failure_outcomes default_settings _ "not-the-password" _)).
    right. eexists. split; [exact reset_requested_account|].
    split; vm_compute; reflexivity.
Defined.

(** C8, where the claim fails: the code of an account is still stored
    after it has expired. *)
Lemma expired_code_still_stored :
  account 1000000000 2000000000 ∈ users_collection registered_late
  /\ User.verification_code (account 1000000000 2000000000) <> None
  /\ ~ verification_pending (now registered_late) (account 1000000000 2000000000).
Proof.
  split; [vm_compute; apply list_elem_of_here|]. split; [discriminate|].
  intros [_ Hx]. vm_compute in Hx. by apply Hx.
Qed.

Lemma verification_code_iff_unverified_witness :
  Forall code_while_unverified (users_collection (fresh_world 1000000000))
  /\ account 1000000000 2000000000
     ∈ users_collection
         (run default_settings [Register "a@x.com" "password123" None None None]
            (fresh_world 1000000000))
  /\ (User.verification_code (account 1000000000 2000000000) <> None
      <-> User.is_verified (account 1000000000 2000000000) = false).
Proof.
  assert (Forall code_while_unverified (users_collection (fresh_world 1000000000)))
    as Hall by apply Forall_nil_2.
  assert (account 1000000000 2000000000
          ∈ users_collection
              (run default_settings [Register "a@x.com" "password123" None None None]
                 (fresh_world 1000000000))) as Hin
    by (vm_compute; apply list_elem_of_here).
  split; [exact Hall|]. split; [exact Hin|].
  exact (proj1 (verification_code_iff_unverified default_settings
                  [Register "a@x.com" "password123" None None None]
                  (fresh_world 1000000000) _ Hall Hin)).
Defined.

Lemma failure_leaves_collection_witness :
  success (fst (serve default_settings
                  (Register "a@x.com" "password456" None None None) registered))
  = false
  /\ users_collection
       (snd (serve default_settings
               (Register "a@x.com" "password456" None None None) registered))
     = users_collection registered.
Proof.
  assert (success (fst (serve default_settings
                          (Register "a@x.com" "password456" None None None)
                          registered)) = false) as Hs
    by (vm_compute; reflexivity).
  split; [exact Hs|].
  exact (failure_leaves_collection default_settings _ _ Hs).
Defined.

(** ** Further properties of the code *)

(** *** The shape of the secrets *)

Lemma string_of_list_ascii_length l :
  String.length (string_of_list_ascii l) = length l.
Proof. induction l as [|c l IH]; simpl; [done | by rewrite IH]. Qed.

Lemma random_choices_length population k w :
  length (fst (random_choices population k w)) = k.
Proof.
  revert w. induction k as [|k IH]; intros w; simpl; [done|].
  unfold bind. simpl.
  match goal with
  | |- context [random_choices population k ?a] =>
      specialize (IH a); destruct (random_choices population k a)
  end.
  simpl in *. by rewrite IH.
Qed.

Lemma random_choices_forallb (P : ascii -> bool) population k w :
  generator_in_range w ->
  population <> [] ->
  forallb P population = true ->
  forallb P (fst (random_choices population k w)) = true.
Proof.
  intros Hg Hne HP. revert w Hg.
  induction k as [|k IH]; intros w Hg; simpl; [done|].
  unfold bind. simpl.
  match goal with
  | |- context [random_choices population k ?a] =>
      specialize (IH a Hg); destruct (random_choices population k a)
  end.
  simpl in *. rewrite IH, andb_true_r.
  rewrite forallb_forall in HP. apply HP, nth_In, Hg.
  destruct population; [done | simpl; lia].
Qed.

(** X1.  With the generator's indices in range, the verification code is
    six decimal digits, so it passes the pattern the verify-email request
    demands of a code. *)
Theorem generate_verification_code_format w :
  generator_in_range w ->
  verification_code_pattern (fst (generate_verification_code w)) = true.
Proof.
  intros Hg. unfold generate_verification_code, bind, verification_code_pattern.
  pose proof (random_choices_length (list_ascii_of_string digits) 6 w) as Hlen.
  pose proof (random_choices_forallb is_digit (list_ascii_of_string digits) 6 w Hg)
    as Hdig.
  destruct (random_choices _ 6 w) as [cs w']. simpl in *.
  rewrite string_of_list_ascii_length, Hlen, list_ascii_of_string_of_list_ascii.
  simpl. apply Hdig; [discriminate | reflexivity].
Qed.

(** X2.  With the generator's indices in range, the reset token is 32
    characters, each an ASCII letter or a decimal digit; in particular it
    is not the empty string. *)
Theorem generate_reset_token_format w :
  generator_in_range w ->
  String.length (fst (generate_reset_token w)) = 32%nat
  /\ forallb (fun c => is_ascii_letter c || is_digit c)
       (list_ascii_of_string (fst (generate_reset_token w))) = true
  /\ fst (generate_reset_token w) <> "".
Proof.
  intros Hg. unfold generate_reset_token, bind.
  pose proof (random_choices_length
                (list_ascii_of_string (ascii_letters ++ digits)) 32 w) as Hlen.
  pose proof (random_choices_forallb (fun c => is_ascii_letter c || is_digit c)
                (list_ascii_of_string (ascii_letters ++ digits)) 32 w Hg) as Hal.
  destruct (random_choices _ 32 w) as [cs w']. simpl in *.
  rewrite string_of_list_ascii_length, list_ascii_of_string_of_list_ascii.
  split; [exact Hlen|]. split.
  - apply Hal; [discriminate | reflexivity].
  - destruct cs; [discriminate | simpl; discriminate].
Qed.

Lemma generate_reset_token_nonempty w : fst (generate_reset_token w) <> "".
Proof.
  unfold generate_reset_token, bind.
  pose proof (random_choices_length
                (list_ascii_of_string (ascii_letters ++ digits)) 32 w) as Hlen.
  destruct (random_choices _ 32 w) as [cs w']. simpl in *.
  destruct cs; [discriminate | simpl; discriminate].
Qed.

Section Further.

Context (settings : Settings) `{CredentialHasher}.

(** *** The routes and the notifier *)

(** X3.  The password-reset route hands the notifier exactly one mail
    for an email an account has, addressed to that email and carrying the
    very token the account now stores; for an email no account has it
    hands over none. *)
Theorem password_reset_notifies e w :
  match find (has_email e) (users_collection w) with
  | None => outbox (snd (password_reset settings e w)) = outbox w
  | Some u =>
      let tok := fst (generate_reset_token w) in
      outbox (snd (password_reset settings e w)) = PasswordResetMail e tok :: outbox w
      /\ exists u',
           find (has_email e) (users_collection (snd (password_reset settings e w)))
           = Some u'
           /\ User.password_reset_token u' = Some tok
  end.
Proof.
  unfold password_reset, bind. rewrite initiate_password_reset_eq.
  destruct (find (has_email e) (users_collection w)) as [u|] eqn:Hf; [|done].
  cbn [success get_reset_token fst snd].
  rewrite bool_decide_eq_false_2 by apply generate_reset_token_nonempty.
  cbn [ret send fst snd users_collection outbox later]. split; [done|].
  rewrite find_update_first_eq, Hf by done. by eexists.
Qed.

(** X4.  The signup route: for an email an account has, it answers 400
    "User already exists", sends nothing and changes nothing; for a new
    email it answers with the signup response, appends the new account,
    and hands the notifier one verification mail whose code is the code
    the account stores. *)
Theorem signup_outcomes e p f a d w :
  match find (has_email e) (users_collection w) with
  | Some _ =>
      signup settings e p f a d w = (HTTPException 400 "User already exists", w)
  | None =>
      let code := fst (generate_verification_code w) in
      let w' := snd (signup settings e p f a d w) in
      fst (signup settings e p f a d w)
      = UserSignupResponse e "User registered successfully. Please verify your email."
      /\ outbox w' = VerificationMail e code :: outbox w
      /\ users_collection w' = (users_collection w ++ [new_user settings e p f a d w])%list
      /\ User.verification_code (new_user settings e p f a d w) = Some code
  end.
Proof.
  unfold signup, bind.
  destruct (find (has_email e) (users_collection w)) as [u|] eqn:Hf.
  - by rewrite (register_user_existing _ _ _ _ _ _ _ u Hf).
  - by rewrite register_user_fresh.
Qed.

(** *** From registration to a validated token *)

Lemma create_access_token_default subject w :
  fst (create_access_token settings {["sub" := CStr subject]} None w)
  = JWS (jwt_algorithm settings) (jwt_secret_key settings)
      (<["exp" := CInt (timegm (now w + timedelta_hours (jwt_expiration_hours settings)))]>
         (<["exp" := CDatetime (now w + timedelta_hours (jwt_expiration_hours settings))]>
            {["sub" := CStr subject]})).
Proof. unfold create_access_token, bind. cbn [fst ret utcnow]. apply access_token_claims. Qed.

Lemma issued_token_verifies subject expire w :
  (now w < expire)%Z ->
  fst (verify_token settings
         (JWS (jwt_algorithm settings) (jwt_secret_key settings)
            (<["exp" := CInt (timegm expire)]>
               (<["exp" := CDatetime expire]> {["sub" := CStr subject]}))) w)
  = Some (<["exp" := CInt (timegm expire)]>
            (<["exp" := CDatetime expire]> {["sub" := CStr subject]})).
Proof.
  intros Hlt. rewrite verify_token_eq.
  rewrite !bool_decide_eq_true_2 by (done || apply list_elem_of_here).
  rewrite issued_claims_accepted by (apply timegm_mono; lia). cbn [andb].
  by rewrite lookup_insert_ne, lookup_insert_ne, lookup_singleton_eq.
Qed.

Lemma issued_token_validates subject expire w :
  (now w < expire)%Z ->
  fst (validate_token settings
         (JWS (jwt_algorithm settings) (jwt_secret_key settings)
            (<["exp" := CInt (timegm expire)]>
               (<["exp" := CDatetime expire]> {["sub" := CStr subject]}))) w)
  = ValidateTokenResponse true (Some (CStr subject)) "Token is valid".
Proof.
  intros Hlt. unfold validate_token, bind.
  pose proof (issued_token_verifies subject expire w Hlt) as Hv.
  destruct (verify_token settings _ w) as [payload w'']. simpl in Hv. subst payload.
  assert ((<["exp" := CInt (timegm expire)]>
             (<["exp" := CDatetime expire]> {["sub" := CStr subject]})
           : gmap string Claim) !! "sub" = Some (CStr subject)) as Hsub
    by by rewrite lookup_insert_ne, lookup_insert_ne, lookup_singleton_eq.
  rewrite bool_decide_eq_false_2.
  - simpl. by rewrite Hsub.
  - intros Hempty. rewrite Hempty in Hsub. by rewrite lookup_empty in Hsub.
Qed.

(** X5.  The whole path.  An email no account has registers; if the
    clock, when the account verifies with the code the registration
    returned, has not passed the expiry of that code as the collection
    keeps it, to the millisecond, the verification succeeds; then, the hasher verifying the password against the hash
    it made of it, signing in with the registered password yields a
    bearer token with [expires_in] of [jwt_expiration_hours] hours in
    seconds, and the validate-token route finds that token valid, with
    the registered email, at every instant before the token expires. *)
Theorem registration_flow e p f a d w :
  find (has_email e) (users_collection w) = None ->
  verify_password p (hash_with_salt (salts w) p) = true ->
  (clock w (3 + clock_reads w)
   <= bson_datetime
        (now w + timedelta_minutes (verification_code_expiration_minutes settings)))%Z ->
  let code := fst (generate_verification_code w) in
  let w1 := snd (register_user settings e p f a d w) in
  let w2 := snd (verify_email e code w1) in
  fst (register_user settings e p f a d w) = Registered (next_oid w) e code
  /\ fst (verify_email e code w1) = Success "Email verified successfully"
  /\ exists token,
       fst (authenticate_user settings e p w2)
       = Authenticated token "bearer" (jwt_expiration_hours settings * 3600) e
       /\ forall w',
            (now w' < now w2 + timedelta_hours (jwt_expiration_hours settings))%Z ->
            fst (validate_token settings token w')
            = ValidateTokenResponse true (Some (CStr e)) "Token is valid".
Proof.
  intros Hf Hp Hclock code w1 w2. subst w2 w1.
  rewrite register_user_fresh by done. cbn [fst snd]. split; [done|].
  set (u := new_user settings e p f a d w).
  assert (find (has_email e) (users_collection w ++ [u]) = Some u) as Hf1.
  { rewrite find_one_app, Hf. simpl.
    by rewrite (proj2 (has_email_true e u) eq_refl). }
  rewrite verify_email_eq. cbn [users_collection later]. rewrite Hf1.
  cbn [User.is_verified User.verification_code User.verification_code_expires_at u
       new_user to_bson fmap option_fmap option_map].
  rewrite bool_decide_eq_true_2 by done. cbn [negb is_late reads_of].
  assert ((bson_datetime
             (now w + timedelta_minutes (verification_code_expiration_minutes settings))
           <? now (later (users_collection w ++ [u]) (S (next_oid w)) 3 6 1 w))%Z
          = false) as ->.
  { apply Z.ltb_ge. exact Hclock. }
  cbn [fst snd]. split; [done|].
  rewrite authenticate_user_eq. cbn [users_collection later].
  rewrite find_update_first_eq, Hf1 by done.
  cbn [fmap option_fmap option_map set_verified User.is_verified User.password_hash
       negb u new_user to_bson].
  rewrite Hp. cbn [negb fst]. eexists. split; [reflexivity|].
  intros w' Hw'. rewrite create_access_token_default.
  by apply issued_token_validates.
Qed.

(** X6.  The [expires_in] a sign-in reports is the lifetime the token
    carries: the [exp] claim of the issued token is the second of issue
    plus [expires_in], and its [sub] claim is the email. *)
Theorem expires_in_matches_exp e p w token token_type expires_in e' :
  fst (authenticate_user settings e p w) = Authenticated token token_type expires_in e' ->
  exists claims,
    token = JWS (jwt_algorithm settings) (jwt_secret_key settings) claims
    /\ claims !! "exp" = Some (CInt (timegm (now w) + expires_in))
    /\ claims !! "sub" = Some (CStr e)
    /\ e' = e /\ token_type = "bearer".
Proof.
  rewrite authenticate_user_eq.
  destruct (find (has_email e) (users_collection w)) as [u|]; [|done].
  destruct (negb (User.is_verified u)); [done|].
  destruct (negb (verify_password _ _)); [done|].
  cbn [fst]. rewrite create_access_token_default. intros [= <- <- <- <-].
  eexists. split; [reflexivity|]. rewrite lookup_insert_eq.
  split; [|by rewrite lookup_insert_ne, lookup_insert_ne, lookup_singleton_eq].
  do 2 f_equal. unfold timegm, timedelta_hours.
  replace (now w + jwt_expiration_hours settings * 3600000000)%Z
    with (now w + (jwt_expiration_hours settings * 3600) * 1000000)%Z by lia.
  by rewrite Z.div_add.
Qed.

(** *** What a request can do to an account *)

Lemma serve_account_cases r w e u :
  find (has_email e) (users_collection w) = Some u ->
  exists u',
    find (has_email e) (users_collection (snd (serve settings r w))) = Some u'
    /\ (u' = u
        \/ (exists c t, r = VerifyEmail e c /\ u' = set_verified t u)
        \/ (exists tok exp t, r = InitiatePasswordReset e
                              /\ u' = set_reset_token tok exp t u)
        \/ (exists tok p h t, r = ConfirmPasswordReset e tok p
                              /\ u' = set_password h t u)).
Proof.
  intros Hf. destruct r as [e0 p f a d|e0 c|e0 p|e0|e0 tok p]; simpl.
  - destruct (find (has_email e0) (users_collection w)) as [v|] eqn:Hf0.
    + rewrite (register_user_existing _ _ _ _ _ _ _ v Hf0). eauto.
    + rewrite register_user_fresh by done. simpl. rewrite find_one_app, Hf. eauto.
  - rewrite verify_email_eq.
    destruct (find (has_email e0) (users_collection w)) as [v|] eqn:Hf0; [|eauto].
    destruct (User.is_verified v); [eauto|].
    destruct (negb _); [eauto|].
    destruct (is_late _ w); simpl; [eauto|].
    rewrite find_update_first, Hf by done. simpl. case_bool_decide as E; [|eauto].
    subst e0. eexists. split; [done|]. right. left. eauto.
  - rewrite authenticate_user_eq.
    destruct (find (has_email e0) (users_collection w)) as [v|]; [|eauto].
    destruct (negb (User.is_verified v)); [eauto|].
    destruct (negb (verify_password _ _)); simpl; eauto.
  - rewrite initiate_password_reset_eq.
    destruct (find (has_email e0) (users_collection w)) as [v|] eqn:Hf0; [|eauto].
    cbn [fst snd users_collection later].
    rewrite find_update_first, Hf by done. cbn [fmap option_fmap option_map].
    case_bool_decide as E; [|eauto].
    subst e0. eexists. split; [done|]. right. right. left. eauto.
  - rewrite confirm_password_reset_eq.
    destruct (find (has_email e0) (users_collection w)) as [v|] eqn:Hf0; [|eauto].
    destruct (negb _); [eauto|].
    destruct (is_late _ w); simpl; [eauto|].
    rewrite find_update_first, Hf by done. simpl. case_bool_decide as E; [|eauto].
    subst e0. eexists. split; [done|]. right. right. right. eauto 6.
Qed.

(** X7.  Wrong codes cost nothing.  On an account that is not verified,
    a [verify_email] with a code other than the stored one fails with
    "Invalid verification code" and leaves the world exactly as it was,
    however often it is tried: no attempt is counted and the stored code
    stays as good as before. *)
Theorem wrong_codes_change_nothing e w u cs :
  find (has_email e) (users_collection w) = Some u ->
  User.is_verified u = false ->
  Forall (fun c => User.verification_code u <> Some c) cs ->
  Forall (fun c => verify_email e c w = (Failure "Invalid verification code", w)) cs
  /\ run settings (map (VerifyEmail e) cs) w = w.
Proof.
  intros Hf Hv Hcs.
  assert (forall c, User.verification_code u <> Some c ->
            verify_email e c w = (Failure "Invalid verification code", w)) as Hone.
  { intros c Hc. rewrite verify_email_eq, Hf, Hv. by rewrite bool_decide_eq_false_2. }
  split.
  - eapply Forall_impl; [exact Hcs | exact Hone].
  - induction Hcs as [|c cs Hc Hcs IH]; simpl; [done|]. by rewrite Hone.
Qed.

(** *** The reset token is spent by its use *)

Lemma run_reset_token_cleared rs w e u :
  find (has_email e) (users_collection w) = Some u ->
  User.password_reset_token u = None ->
  InitiatePasswordReset e ∉ rs ->
  exists u', find (has_email e) (users_collection (run settings rs w)) = Some u'
             /\ User.password_reset_token u' = None.
Proof.
  revert w u. induction rs as [|r rs IH]; intros w u Hf Hn Hrs; simpl; [eauto|].
  apply not_elem_of_cons in Hrs as [Hr Hrs].
  destruct (serve_account_cases r w e u Hf)
    as (u' & Hf' & [->|[(c & t & _ & ->)|[(tok & x & t & -> & _)|(tok & p & h & t & _ & ->)]]]).
  - by apply (IH _ u).
  - by apply (IH _ _ Hf').
  - done.
  - by apply (IH _ _ Hf').
Qed.

(** X8.  A reset token is spent by its use.  After a successful
    [confirm_password_reset], and after any further requests among which
    the account does not ask for a new reset, every
    [confirm_password_reset] on the account, with the token just used or
    any other, fails with "Invalid reset token". *)
Theorem reset_token_single_use e tok new_password w rs :
  success (fst (confirm_password_reset e tok new_password w)) = true ->
  InitiatePasswordReset e ∉ rs ->
  forall tok' new_password',
    fst (confirm_password_reset e tok' new_password'
           (run settings rs (snd (confirm_password_reset e tok new_password w))))
    = Failure "Invalid reset token".
Proof.
  intros Hs Hrs tok' np'. revert Hs. rewrite (confirm_password_reset_eq e tok).
  destruct (find (has_email e) (users_collection w)) as [u|] eqn:Hf; [|done].
  destruct (negb _); [done|].
  destruct (is_late _ w); simpl; [done|]. intros _.
  match goal with
  | |- context [run settings rs ?a] =>
      destruct (run_reset_token_cleared rs a e
                  (set_password (hash_with_salt (salts w) new_password)
                     (clock w (reads_of (User.password_reset_token_expires_at u)
                               + clock_reads w)) u))
        as (u' & Hf' & Hn); [|done|done|]
  end.
  - simpl. by rewrite find_update_first_eq, Hf.
  - rewrite confirm_password_reset_eq, Hf', Hn. by rewrite bool_decide_eq_false_2.
Qed.

(** X9.  A new request replaces the token.  When an account asks for a
    reset twice and the generator does not repeat itself, the account
    stores the second token, and confirming with the first fails with
    "Invalid reset token". *)
Theorem new_reset_request_replaces_token e w u new_password :
  find (has_email e) (users_collection w) = Some u ->
  let tok1 := fst (generate_reset_token w) in
  let w1 := snd (initiate_password_reset settings e w) in
  let tok2 := fst (generate_reset_token w1) in
  let w2 := snd (initiate_password_reset settings e w1) in
  tok1 <> tok2 ->
  (exists u2, find (has_email e) (users_collection w2) = Some u2
              /\ User.password_reset_token u2 = Some tok2)
  /\ confirm_password_reset e tok1 new_password w2 = (Failure "Invalid reset token", w2).
Proof.
  intros Hf tok1 w1 tok2 w2 Hne.
  assert (exists u1, find (has_email e) (users_collection w1) = Some u1) as [u1 Hf1].
  { unfold w1. rewrite initiate_password_reset_eq, Hf.
    cbn [fst snd users_collection later].
    rewrite find_update_first_eq, Hf by done. by eexists. }
  assert (exists u2, find (has_email e) (users_collection w2) = Some u2
                     /\ User.password_reset_token u2 = Some tok2) as (u2 & Hf2 & Ht2).
  { unfold w2. rewrite initiate_password_reset_eq, Hf1.
    cbn [fst snd users_collection later].
    rewrite find_update_first_eq, Hf1 by done. by eexists. }
  split; [by eexists|].
  rewrite confirm_password_reset_eq, Hf2, Ht2.
  rewrite bool_decide_eq_false_2; [done | congruence].
Qed.

(** *** What stays of an account *)

Lemma account_step_same_identity w u u' : account_step w u u' -> same_identity u u'.
Proof. intros [|t Hv Hl|tok exp t|h t]; by repeat split. Qed.

Lemma same_identity_trans u u' u'' :
  same_identity u u' -> same_identity u' u'' -> same_identity u u''.
Proof.
  unfold same_identity. intros (?&?&?&?&?&?&?) (?&?&?&?&?&?&?).
  repeat split; try congruence. auto.
Qed.

Lemma run_same_identity rs w e u :
  find (has_email e) (users_collection w) = Some u ->
  exists u', find (has_email e) (users_collection (run settings rs w)) = Some u'
             /\ same_identity u u'.
Proof.
  revert w u. induction rs as [|r rs IH]; intros w u Hf; simpl.
  - exists u. split; [done|]. by repeat split.
  - destruct (serve_account settings r w e u Hf) as (u1 & Hf1 & Hstep).
    destruct (IH _ u1 Hf1) as (u' & Hf' & Hid). exists u'. split; [done|].
    eapply same_identity_trans; [by eapply account_step_same_identity | done].
Qed.

(** X10.  An account is for good, and so is who it is.  Whatever
    requests are served, an account that exists keeps existing under its
    email, with the [_id], the email, the profile (full name, avatar,
    date of birth) and the [created_at] it had; and if it was verified
    it is still verified. *)
Theorem account_identity_is_stable rs w e u :
  find (has_email e) (users_collection w) = Some u ->
  exists u', find (has_email e) (users_collection (run settings rs w)) = Some u'
             /\ User._id u' = User._id u
             /\ User.email u' = e
             /\ User.fullname u' = User.fullname u
             /\ User.avatar u' = User.avatar u
             /\ User.dob u' = User.dob u
             /\ User.created_at u' = User.created_at u
             /\ (User.is_verified u = true -> User.is_verified u' = true).
Proof.
  intros Hf. destruct (run_same_identity rs w e u Hf) as (u' & Hf' & Hid).
  exists u'. split; [done|]. destruct Hid as (?&Hem&?&?&?&?&?).
  repeat split; try done. rewrite Hem. by eapply find_one_email.
Qed.

Lemma run_password_kept rs w e u :
  find (has_email e) (users_collection w) = Some u ->
  (forall tok p, ConfirmPasswordReset e tok p ∉ rs) ->
  exists u', find (has_email e) (users_collection (run settings rs w)) = Some u'
             /\ User.password_hash u' = User.password_hash u
             /\ (User.is_verified u = true -> User.is_verified u' = true).
Proof.
  revert w u. induction rs as [|r rs IH]; intros w u Hf Hrs; simpl; [eauto|].
  assert (forall tok p, ConfirmPasswordReset e tok p ∉ rs) as Hrs'.
  { intros tok p Hin. apply (Hrs tok p). by apply elem_of_cons; right. }
  destruct (serve_account_cases r w e u Hf)
    as (u' & Hf' & [->|[(c & t & _ & ->)|[(tok & x & t & _ & ->)|(tok & p & h & t & -> & _)]]]).
  - by apply (IH _ u).
  - destruct (IH _ _ Hf' Hrs') as (u'' & Hf'' & Hh & Hv). exists u''.
    split; [done|]. split; [done|]. intros _. by apply Hv.
  - destruct (IH _ _ Hf' Hrs') as (u'' & Hf'' & Hh & Hv). exists u''.
    split; [done|]. split; [done|]. exact Hv.
  - destruct (Hrs tok p). apply list_elem_of_here.
Qed.

(** X11.  Only a confirmed reset changes a password.  A verified account
    whose password the hasher accepts can still sign in with that
    password after any requests among which there is no
    [confirm_password_reset] for its email: registrations, verifications,
    sign-ins, reset requests, and resets of other accounts, leave its
    [password_hash] alone. *)
Theorem sign_in_survives rs w e p u :
  find (has_email e) (users_collection w) = Some u ->
  User.is_verified u = true ->
  verify_password p (User.password_hash u) = true ->
  (forall tok p', ConfirmPasswordReset e tok p' ∉ rs) ->
  (exists u', find (has_email e) (users_collection (run settings rs w)) = Some u'
              /\ User.password_hash u' = User.password_hash u)
  /\ success (fst (authenticate_user settings e p (run settings rs w))) = true.
Proof.
  intros Hf Hv Hp Hrs.
  destruct (run_password_kept rs w e u Hf Hrs) as (u' & Hf' & Hh & Hv').
  split; [by eexists|].
  rewrite authenticate_user_eq, Hf', (Hv' Hv), Hh, Hp. done.
Qed.

(** *** What [verify_token] accepts *)


(** *** GET /me *)

Lemma verify_token_users token w :
  users_collection (snd (verify_token settings token w)) = users_collection w.
Proof.
  unfold verify_token, bind. destruct token as [s|alg key claims]; [done|].
  destruct (jwt_decode_eq alg key claims (jwt_secret_key settings)
              [jwt_algorithm settings] w) as [_ Hu].
  destruct (jwt_decode _ _ _ w) as [[payload|] w'']; cbn [snd] in Hu; [|done].
  by destruct (payload !! "sub").
Qed.

Lemma get_email_from_token_eq token w :
  fst (get_email_from_token settings token w)
  = match fst (verify_token settings token w) with
    | Some payload => payload !! "sub"
    | None => None
    end
  /\ users_collection (snd (get_email_from_token settings token w))
     = users_collection w.
Proof.
  unfold get_email_from_token, bind.
  pose proof (verify_token_users token w) as Hu.
  destruct (verify_token settings token w) as [[payload|] w'']; simpl in *; [|done].
  case_bool_decide as E; simpl; [|done]. subst payload. by rewrite lookup_empty.
Qed.

(** X13.  No profile without a valid token.  When GET /me answers with
    a profile, [verify_token] accepts the presented token, the subject
    of the token is the email of the profile, and the profile is that of
    the account stored under that email. *)
Theorem me_requires_valid_token token w email fullname avatar dob is_verified created_at :
  fst (get_current_user settings token w)
  = UserInfoResponse email fullname avatar dob is_verified created_at ->
  exists payload u,
    fst (verify_token settings token w) = Some payload
    /\ payload !! "sub" = Some (CStr email)
    /\ find (has_email email) (users_collection w) = Some u
    /\ fullname = User.fullname u /\ avatar = User.avatar u /\ dob = User.dob u
    /\ is_verified = User.is_verified u /\ created_at = User.created_at u.
Proof.
  unfold get_current_user, bind.
  destruct (get_email_from_token_eq token w) as [He Hu].
  destruct (get_email_from_token settings token w) as [em w'']. simpl in He, Hu.
  destruct (verify_token settings token w) as [[payload|] w0]; simpl in He;
    [|by subst em].
  destruct em as [[s|n|t]|]; try done.
  - case_bool_decide; [done|]. unfold get_user_by_email, find_one. simpl.
    rewrite Hu. destruct (find (has_email s) (users_collection w)) as [u|] eqn:Hf;
      [|done].
    simpl. intros [= <- <- <- <- <- <-].
    pose proof (find_one_email _ _ _ Hf) as Hem.
    exists payload, u. rewrite Hem. by repeat split.
  - by destruct (n =? 0)%Z.
Qed.

(** X14.  A token from a sign-in opens GET /me.  The token a successful
    sign-in returned for a non-empty email, presented before it expires
    and after any further requests, is answered with the profile of that
    account: the email, the profile fields and the [created_at] it had
    at sign-in, and [is_verified] true; never with 401 or 404. *)
Theorem me_after_signin e p w token token_type expires_in e' rs :
  e <> "" ->
  fst (signin settings e p w) = SignInResponse token token_type expires_in e' ->
  let w' := run settings rs (snd (signin settings e p w)) in
  (now w' < now w + timedelta_hours (jwt_expiration_hours settings))%Z ->
  exists u,
    find (has_email e) (users_collection w) = Some u
    /\ fst (get_current_user settings token w')
       = UserInfoResponse e (User.fullname u) (User.avatar u) (User.dob u) true
           (User.created_at u).
Proof.
  intros Hne. rewrite signin_eq.
  destruct (find (has_email e) (users_collection w)) as [u|] eqn:Hf; [|done].
  destruct (User.is_verified u) eqn:Hv; [|done]. cbn [negb].
  destruct (negb (verify_password _ _)); [done|]. cbn [fst snd].
  rewrite create_access_token_default. intros [= <- _ _ _]. cbv zeta.
  set (w' := run settings rs _). intros Hlt.
  exists u. split; [done|].
  destruct (run_same_identity rs (later (users_collection w) (next_oid w) 1 0 0 w) e u Hf)
    as (u' & Hf' & Hid). fold w' in Hf'.
  unfold get_current_user, bind.
  destruct (get_email_from_token_eq
              (JWS (jwt_algorithm settings) (jwt_secret_key settings)
                 (<["exp" := CInt (timegm (now w + timedelta_hours
                                             (jwt_expiration_hours settings)))]>
                    (<["exp" := CDatetime (now w + timedelta_hours
                                             (jwt_expiration_hours settings))]>
                       {["sub" := CStr e]}))) w') as [He Hu].
  rewrite issued_token_verifies in He by done.
  rewrite lookup_insert_ne, lookup_insert_ne, lookup_singleton_eq in He by done.
  destruct (get_email_from_token settings _ w') as [em w'']. simpl in He, Hu. subst em.
  rewrite bool_decide_eq_false_2 by done.
  unfold get_user_by_email, find_one. simpl. rewrite Hu, Hf'. simpl.
  destruct Hid as (_ & Hem & -> & -> & -> & -> & Hver).
  rewrite Hem, (find_one_email _ _ _ Hf), (Hver Hv). done.
Qed.

End Further.

(** *** The further properties on the concrete deployment *)

Lemma fresh_world_in_range step : generator_in_range (fresh_world step).
Proof. intros i n Hn. simpl. apply Nat.mod_upper_bound. lia. Qed.

Lemma generate_verification_code_format_witness :
  generator_in_range (fresh_world 1000)
  /\ verification_code_pattern (fst (generate_verification_code (fresh_world 1000)))
     = true.
Proof.
  split; [apply fresh_world_in_range|].
  exact (generate_verification_code_format _ (fresh_world_in_range 1000)).
Defined.

Lemma generate_reset_token_format_witness :
  generator_in_range (fresh_world 1000)
  /\ String.length (fst (generate_reset_token (fresh_world 1000))) = 32%nat.
Proof.
  split; [apply fresh_world_in_range|].
  exact (proj1 (generate_reset_token_format _ (fresh_world_in_range 1000))).
Defined.

Lemma registration_flow_witness :
  find (has_email "a@x.com") (users_collection (fresh_world 1000)) = None
  /\ verify_password "password123"
       (hash_with_salt (salts (fresh_world 1000)) "password123") = true
  /\ (clock (fresh_world 1000) (3 + clock_reads (fresh_world 1000))
      <= bson_datetime
           (now (fresh_world 1000)
            + timedelta_minutes (verification_code_expiration_minutes default_settings)))%Z
  /\ fst (verify_email "a@x.com" (fst (generate_verification_code (fresh_world 1000)))
            (snd (register_user default_settings "a@x.com" "password123"
                    None None None (fresh_world 1000))))
     = Success "Email verified successfully".
Proof.
  assert (find (has_email "a@x.com") (users_collection (fresh_world 1000)) = None)
    as Hf by reflexivity.
  assert (verify_password "password123"
            (hash_with_salt (salts (fresh_world 1000)) "password123") = true)
    as Hp by (vm_compute; reflexivity).
  assert (clock (fresh_world 1000) (3 + clock_reads (fresh_world 1000))
          <= bson_datetime
               (now (fresh_world 1000)
                + timedelta_minutes
                    (verification_code_expiration_minutes default_settings)))%Z
    as Hc by (vm_compute; discriminate).
  split; [exact Hf|]. split; [exact Hp|]. split; [exact Hc|].
  exact (proj1 (proj2 (registration_flow default_settings "a@x.com" "password123"
                         None None None (fresh_world 1000) Hf Hp Hc))).
Defined.

Lemma expires_in_matches_exp_witness :
  fst (authenticate_user default_settings "a@x.com" "password123" reset_requested)
  = Authenticated
      (fst (create_access_token default_settings {["sub" := CStr "a@x.com"]} None
              reset_requested))
      "bearer" 86400 "a@x.com"
  /\ exists claims,
       fst (create_access_token default_settings {["sub" := CStr "a@x.com"]} None
              reset_requested)
       = JWS "HS256" "your-jwt-secret-key-change-in-production" claims
       /\ claims !! "exp" = Some (CInt (timegm (now reset_requested) + 86400)).
Proof.
  assert (fst (authenticate_user default_settings "a@x.com" "password123"
                 reset_requested)
          = Authenticated
              (fst (create_access_token default_settings {["sub" := CStr "a@x.com"]}
                      None reset_requested))
              "bearer" 86400 "a@x.com") as Hauth
    by (vm_compute; reflexivity).
  split; [exact Hauth|].
  destruct (expires_in_matches_exp default_settings _ _ _ _ _ _ _ Hauth)
    as (claims & Htok & Hexp & _).
  exists claims. split; [exact Htok | exact Hexp].
Defined.

Lemma wrong_codes_change_nothing_witness :
  find (has_email "a@x.com") (users_collection registered) = Some (account 1000 2000)
  /\ run default_settings
       (map (VerifyEmail "a@x.com") ["000000"; "111111"; "000000"]) registered
     = registered.
Proof.
  assert (find (has_email "a@x.com") (users_collection registered)
          = Some (account 1000 2000)) as Hf by (vm_compute; reflexivity).
  split; [exact Hf|].
  apply (wrong_codes_change_nothing default_settings _ _ _ _ Hf eq_refl).
  repeat constructor; discriminate.
Defined.

Lemma reset_token_single_use_witness :
  success (fst (confirm_password_reset "a@x.com" "T07elszGNU18fmtAHOV29gnuBIPW3aho"
                  "newpassword1" reset_requested)) = true
  /\ fst (confirm_password_reset "a@x.com" "T07elszGNU18fmtAHOV29gnuBIPW3aho"
            "newpassword2"
            (run default_settings [SignIn "a@x.com" "newpassword1"]
               (snd (confirm_password_reset "a@x.com"
                       "T07elszGNU18fmtAHOV29gnuBIPW3aho" "newpassword1"
                       reset_requested))))
     = Failure "Invalid reset token".
Proof.
  assert (success (fst (confirm_password_reset "a@x.com"
                          "T07elszGNU18fmtAHOV29gnuBIPW3aho" "newpassword1"
                          reset_requested)) = true) as Hs
    by (vm_compute; reflexivity).
  split; [exact Hs|].
  apply (reset_token_single_use default_settings _ _ _ _ _ Hs).
  intros Hin. apply list_elem_of_singleton in Hin. discriminate.
Defined.

Lemma new_reset_request_replaces_token_witness :
  fst (generate_reset_token registered)
  <> fst (generate_reset_token
            (snd (initiate_password_reset default_settings "a@x.com" registered)))
  /\ fst (confirm_password_reset "a@x.com" (fst (generate_reset_token registered))
            "newpassword1"
            (snd (initiate_password_reset default_settings "a@x.com"
                    (snd (initiate_password_reset default_settings "a@x.com"
                            registered)))))
     = Failure "Invalid reset token".
Proof.
  assert (find (has_email "a@x.com") (users_collection registered)
          = Some (account 1000 2000)) as Hf by (vm_compute; reflexivity).
  assert (fst (generate_reset_token registered)
          <> fst (generate_reset_token
                    (snd (initiate_password_reset default_settings "a@x.com"
                            registered)))) as Hne
    by (vm_compute; discriminate).
  split; [exact Hne|].
  exact (f_equal fst
           (proj2 (new_reset_request_replaces_token default_settings
                     "a@x.com" registered _ "newpassword1" Hf Hne))).
Defined.

Lemma account_identity_is_stable_witness :
  find (has_email "a@x.com") (users_collection registered) = Some (account 1000 2000)
  /\ exists u',
       find (has_email "a@x.com")
         (users_collection
            (run default_settings
               [VerifyEmail "a@x.com" "307418"; InitiatePasswordReset "a@x.com"]
               registered)) = Some u'
       /\ User.created_at u' = 1000%Z.
Proof.
  assert (find (has_email "a@x.com") (users_collection registered)
          = Some (account 1000 2000)) as Hf by (vm_compute; reflexivity).
  split; [exact Hf|].
  destruct (account_identity_is_stable default_settings
              [VerifyEmail "a@x.com" "307418"; InitiatePasswordReset "a@x.com"]
              registered "a@x.com" _ Hf) as (u' & Hf' & _ & _ & _ & _ & _ & Hc & _).
  exists u'. split; [exact Hf' | exact Hc].
Defined.

Lemma sign_in_survives_witness :
  verify_password "password123"
    (User.password_hash
       (set_reset_token "T07elszGNU18fmtAHOV29gnuBIPW3aho" 3600005000 6000
          (set_verified 4000 (account 1000 2000)))) = true
  /\ success
       (fst (authenticate_user default_settings "a@x.com" "password123"
               (run default_settings
                  [InitiatePasswordReset "a@x.com"; SignIn "a@x.com" "password123";
                   Register "b@x.com" "password456" None None None]
                  reset_requested))) = true.
Proof.
  assert (verify_password "password123"
            (User.password_hash
               (set_reset_token "T07elszGNU18fmtAHOV29gnuBIPW3aho" 3600005000 6000
                  (set_verified 4000 (account 1000 2000)))) = true) as Hp
    by (vm_compute; reflexivity).
  split; [exact Hp|].
  apply (sign_in_survives default_settings _ _ _ _ _
           reset_requested_account eq_refl Hp).
  intros tok p' Hin.
  repeat (apply elem_of_cons in Hin as [Hin|Hin]; [discriminate|]).
  by apply elem_of_nil in Hin.
Defined.

Lemma me_requires_valid_token_witness :
  fst (get_current_user default_settings
         (fst (create_access_token default_settings {["sub" := CStr "a@x.com"]} None
                 reset_requested))
         reset_requested)
  = UserInfoResponse "a@x.com" None None None true 1000
  /\ exists payload,
       fst (verify_token default_settings
              (fst (create_access_token default_settings {["sub" := CStr "a@x.com"]}
                      None reset_requested))
              reset_requested) = Some payload
       /\ payload !! "sub" = Some (CStr "a@x.com").
Proof.
  assert (fst (get_current_user default_settings
                 (fst (create_access_token default_settings
                         {["sub" := CStr "a@x.com"]} None reset_requested))
                 reset_requested)
          = UserInfoResponse "a@x.com" None None None true 1000) as Hme
    by (vm_compute; reflexivity).
  split; [exact Hme|].
  destruct (me_requires_valid_token default_settings _ _ _ _ _ _ _ _ Hme)
    as (payload & u & Hv & Hs & _).
  exists payload. split; [exact Hv | exact Hs].
Defined.

Lemma me_after_signin_witness :
  "a@x.com" <> ""
  /\ fst (signin default_settings "a@x.com" "password123" reset_requested)
     = SignInResponse
         (fst (create_access_token default_settings {["sub" := CStr "a@x.com"]} None
                 reset_requested))
         "bearer" 86400 "a@x.com"
  /\ (now (run default_settings [SignIn "a@x.com" "password123"]
             (snd (signin default_settings "a@x.com" "password123" reset_requested)))
      < now reset_requested + timedelta_hours (jwt_expiration_hours default_settings))%Z
  /\ exists u,
       fst (get_current_user default_settings
              (fst (create_access_token default_settings {["sub" := CStr "a@x.com"]}
                      None reset_requested))
              (run default_settings [SignIn "a@x.com" "password123"]
                 (snd (signin default_settings "a@x.com" "password123"
                         reset_requested))))
       = UserInfoResponse "a@x.com" (User.fullname u) (User.avatar u) (User.dob u)
           true (User.created_at u).
Proof.
  assert ("a@x.com" <> "") as Hne by discriminate.
  assert (fst (signin default_settings "a@x.com" "password123" reset_requested)
          = SignInResponse
              (fst (create_access_token default_settings {["sub" := CStr "a@x.com"]}
                      None reset_requested))
              "bearer" 86400 "a@x.com") as Hin
    by (vm_compute; reflexivity).
  assert (now (run default_settings [SignIn "a@x.com" "password123"]
                 (snd (signin default_settings "a@x.com" "password123"
                         reset_requested)))
          < now reset_requested
            + timedelta_hours (jwt_expiration_hours default_settings))%Z as Hlt
    by (vm_compute; reflexivity).
  split; [exact Hne|]. split; [exact Hin|]. split; [exact Hlt|].
  destruct (me_after_signin default_settings _ _ _ _ _ _ _
              [SignIn "a@x.com" "password123"] Hne Hin Hlt) as (u & _ & Hme).
  exists u. exact Hme.
Defined.

(** The decoder on tokens the service did not issue: an expiry given as
    a string of digits is read as a number; a token with an audience, or
    with a not-before ahead of the clock, is refused. *)
Lemma verify_token_foreign_claims :
  fst (verify_token default_settings
         (JWS "HS256" "your-jwt-secret-key-change-in-production"
            (<["exp" := CStr "9999999999"]> {["sub" := CStr "a@x.com"]}))
         registered)
  = Some (<["exp" := CStr "9999999999"]> {["sub" := CStr "a@x.com"]})
  /\ fst (verify_token default_settings
            (JWS "HS256" "your-jwt-secret-key-change-in-production"
               (<["aud" := CStr "someone"]> {["sub" := CStr "a@x.com"]}))
            registered) = None
  /\ fst (verify_token default_settings
            (JWS "HS256" "your-jwt-secret-key-change-in-production"
               (<["nbf" := CInt 9999999999]> {["sub" := CStr "a@x.com"]}))
            registered) = None
  /\ fst (verify_token default_settings
            (JWS "HS256" "another-key"
               (<["exp" := CInt 9999999999]> {["sub" := CStr "a@x.com"]}))
            registered) = None.
Proof. repeat split; vm_compute; reflexivity. Qed.

